(** * The response-resolution and urgency pipeline of the clinic chatbot

  A shallow embedding of [app.py] ([ClinicaChatbot], the [/chat] route),
  [sentiment_analysis.py] ([SentimentAnalyzer]) and the two tables of
  [database.py] that the chat route touches, followed by the properties
  of the specification that concern them.

  Conventions of the embedding.
  - A Python [str] is a list of Unicode code points ([str := list Z]).
    String literals of the sources are written as UTF-8 text and decoded
    by [u].
  - Python floats (polarity, subjectivity, confidence) are rationals.
  - A Python [dict] is a [gmap] from keys to Python values.
  - What lives outside the repository is a parameter: the Unicode
    character database ([UnicodeData]), the sentiment scorer and the
    language detector ([Nlp]), the remote text-generation services and
    the process environment ([World]). *)

From stdpp Require Import base gmap strings list fin_maps.
From Stdlib Require Import ZArith QArith Qround Qabs Qminmax Lia Lqa.

Local Open Scope Z_scope.

(** ** Python strings *)

Definition str := list Z.

Module Utf8.

(** Decoder of the UTF-8 text of a source literal: [need] continuation
    bytes are still expected for the code point accumulated in [acc]. *)
Fixpoint decode (need : nat) (acc : Z) (s : string) : str :=
  match s with
  | EmptyString => []
  | String a s' =>
      let b := Z.of_N (Ascii.N_of_ascii a) in
      match need with
      | O =>
          if b <? 0x80 then b :: decode 0 0 s'
          else if b <? 0xE0 then decode 1 (b - 0xC0) s'
          else if b <? 0xF0 then decode 2 (b - 0xE0) s'
          else decode 3 (b - 0xF0) s'
      | S k =>
          let acc' := acc * 64 + (b - 0x80) in
          match k with
          | O => acc' :: decode 0 0 s'
          | S _ => decode k acc' s'
          end
      end
  end.

End Utf8.

Definition u (s : string) : str := Utf8.decode 0 0 s.

(** The double quote, which a literal of this file cannot hold. *)
Definition dq : str := [34].

Definition str_eqb (a b : str) : bool := bool_decide (a = b).

(** [str.isspace] for one character, which is also what [\s] matches in a
    [re] pattern given as [str]. *)
Definition is_space (c : Z) : bool :=
  ((0x09 <=? c) && (c <=? 0x0D)) || ((0x1C <=? c) && (c <=? 0x20))
  || (c =? 0x85) || (c =? 0xA0) || (c =? 0x1680)
  || ((0x2000 <=? c) && (c <=? 0x200A))
  || (c =? 0x2028) || (c =? 0x2029) || (c =? 0x202F) || (c =? 0x205F)
  || (c =? 0x3000).

(** [s.startswith(p)] *)
Fixpoint startswith (p s : str) : bool :=
  match p, s with
  | [], _ => true
  | _ :: _, [] => false
  | a :: p', b :: s' => (a =? b) && startswith p' s'
  end.

(** [k in s] for two strings: substring containment. *)
Fixpoint substr (k s : str) : bool :=
  startswith k s ||
  match s with
  | [] => false
  | _ :: s' => substr k s'
  end.

Fixpoint lstrip (s : str) : str :=
  match s with
  | [] => []
  | c :: s' => if is_space c then lstrip s' else s
  end.

Definition rstrip (s : str) : str := rev (lstrip (rev s)).

(** [s.strip()] *)
Definition strip (s : str) : str := rstrip (lstrip s).

(** [s[:n]] for [n >= 0]. *)
Definition slice_to (n : nat) (s : str) : str := take n s.

(** [lst[-n:]] for [n > 0]. *)
Definition last_n {A} (n : nat) (l : list A) : list A :=
  drop (length l - n)%nat l.

(** ** The Unicode character database *)

(** [unicodedata] and [str.lower] are Python's own; they are taken as
    parameters. *)
Class UnicodeData := {
  nfd : str -> str;        (* unicodedata.normalize('NFD', s) *)
  is_Mn : Z -> bool;       (* unicodedata.category(c) == 'Mn' *)
  lower : str -> str       (* s.lower() *)
}.

Definition is_lower_az (c : Z) : bool := (97 <=? c) && (c <=? 122).
Definition is_digit (c : Z) : bool := (48 <=? c) && (c <=? 57).

(** The characters [re.sub(r'[^a-z0-9\s]', '', text)] leaves in place. *)
Definition kept (c : Z) : bool := is_lower_az c || is_digit c || is_space c.

(** [re.fullmatch]-style test for [^[a-z0-9\s]*$]. *)
Definition matches_az09s (s : str) : bool := forallb kept s.

Section Normalizer.
Context {U : UnicodeData}.

(** [ClinicaChatbot.normalize_text] *)
Definition normalize_text (text : str) : str :=
  let text := nfd text in
  let text := List.filter (fun char => negb (is_Mn char)) text in
  let text := lower text in
  let text := List.filter kept text in
  text.

(** [ClinicaChatbot.contains_keywords] *)
Definition contains_keywords (text : str) (keywords : list str) : bool :=
  let normalized_text := normalize_text text in
  existsb (fun keyword => substr (normalize_text keyword) normalized_text)
          keywords.

End Normalizer.

(** ** Python values *)

(** Floats are rationals; [qlt a b] is [a < b] and [qle a b] is [a <= b]. *)
Definition qle (a b : Q) : bool := Qle_bool a b.
Definition qlt (a b : Q) : bool := negb (Qle_bool b a).

(** [round(x, 3)]: to the nearest thousandth, ties to even. *)
Definition round_half_even (x : Q) : Z :=
  let f := Qfloor x in
  match Qcompare (x - inject_Z f) (1 # 2) with
  | Lt => f
  | Gt => f + 1
  | Eq => if Z.even f then f else f + 1
  end.

Definition round3 (x : Q) : Q :=
  (inject_Z (round_half_even (x * inject_Z 1000)) / inject_Z 1000)%Q.

(** The values held by the dictionary [analyze_sentiment] returns. *)
Inductive pyval :=
| PyStr (s : str)
| PyFloat (x : Q)
| PyPairs (l : list (str * str)).

(** Truth value of a Python object, as [if x:] tests it. *)
Definition truthy (v : pyval) : bool :=
  match v with
  | PyStr s => negb (str_eqb s [])
  | PyFloat x => negb (Qeq_bool x 0)
  | PyPairs l => match l with [] => false | _ => true end
  end.

(** [d.get(key)] used as a condition: [None] when the key is absent. *)
Definition truthy_get (d : gmap string pyval) (key : string) : bool :=
  match d !! key with
  | Some v => truthy v
  | None => false
  end.

(** [d.get(key, default)] used as a number: [None] stands for the
    [TypeError] that comparing a non-number with a float raises. *)
Definition get_float (d : gmap string pyval) (key : string) (default : Q)
  : option Q :=
  match d !! key with
  | None => Some default
  | Some (PyFloat x) => Some x
  | Some _ => None
  end.

(** [not response] on an optional string: [None] and [''] are falsy. *)
Definition falsy (r : option str) : bool :=
  match r with
  | None => true
  | Some s => str_eqb s []
  end.

(** ** [sentiment_analysis.py] *)

(** [TextBlob] and [langdetect] are external packages. *)
Class Nlp := {
  detect : str -> option str;    (* langdetect.detect; None: it raised *)
  polarity_of : str -> Q;        (* TextBlob(text).sentiment.polarity *)
  subjectivity_of : str -> Q     (* TextBlob(text).sentiment.subjectivity *)
}.

Module SentimentAnalyzer.

(** [self.emergency_keywords] *)
Definition emergency_keywords : list str :=
  [
    u "suicídio"; u "suicidio"; u "matar"; u "morrer"; u "morte";
    u "acabar com tudo"; u "não aguento mais"; u "nao aguento mais";
    u "desespero"; u "desesperad"; u "overdose"; u "intoxicação";
    u "intoxicacao"; u "crise"; u "emergência"; u "emergencia"; u "socorro";
    u "ajuda urgente"; u "urgente"; u "agora"; u "imediatamente"
  ].

(** [self.positive_keywords] *)
Definition positive_keywords : list str :=
  [
    u "obrigado"; u "obrigada"; u "agradeco"; u "agradeço"; u "grato";
    u "grata"; u "ajudou"; u "melhor"; u "bem"; u "feliz"; u "esperança";
    u "esperanca"; u "otimista"; u "confiante"; u "motivado"; u "motivada";
    u "positivo"; u "positiva"
  ].

(** [self.negative_keywords] *)
Definition negative_keywords : list str :=
  [
    u "triste"; u "deprimido"; u "deprimida"; u "ansioso"; u "ansiosa";
    u "preocupado"; u "preocupada"; u "medo"; u "receio"; u "nervoso";
    u "nervosa"; u "estressado"; u "estressada"; u "cansado"; u "cansada";
    u "frustrado"; u "frustrada"
  ].

(** *** [clean_text] *)

(** The characters one round of the group
    [(?:[a-zA-Z]|[0-9]|[$-_@.&+]|[!*\(\),]|(?:%[0-9a-fA-F][0-9a-fA-F]))]
    consumes. [$-_] is the range U+0024..U+005F; it holds [%], so the last
    alternative is never reached and every round consumes one character. *)
Definition url_char (c : Z) : bool :=
  ((97 <=? c) && (c <=? 122)) || ((65 <=? c) && (c <=? 90))
  || ((48 <=? c) && (c <=? 57))
  || ((0x24 <=? c) && (c <=? 0x5F)) || (c =? 64) || (c =? 46) || (c =? 38)
  || (c =? 43)
  || (c =? 33) || (c =? 42) || (c =? 40) || (c =? 41) || (c =? 44).

(** Length of the longest prefix of [s] made of characters in [p]. *)
Fixpoint run_length (p : Z -> bool) (s : str) : nat :=
  match s with
  | [] => O
  | c :: s' => if p c then S (run_length p s') else O
  end.

(** Length of the match of [http[s]?://(?:...)+] at the start of [s]. *)
Definition url_match (s : str) : option nat :=
  if startswith (u "http") s then
    let r := drop 4 s in
    let opt_s := if startswith (u "s") r then 1%nat else 0%nat in
    let r := drop opt_s r in
    if startswith (u "://") r then
      match run_length url_char (drop 3 r) with
      | O => None
      | S m => Some (4 + opt_s + 3 + S m)%nat
      end
    else None
  else None.

(** [re.sub(URL, '', s)]: [skip] characters of a match are still to be
    dropped. *)
Fixpoint sub_url (skip : nat) (s : str) : str :=
  match s with
  | [] => []
  | c :: s' =>
      match skip with
      | S k => sub_url k s'
      | O =>
          match url_match s with
          | Some n => sub_url (n - 1) s'
          | None => c :: sub_url 0 s'
          end
      end
  end.

(** A finished run of [p]-characters: replaced when it has [n] or more. *)
Definition flush (n : nat) (repl run : str) : str :=
  if (n <=? length run)%nat then repl else run.

(** [re.sub(r'[p]{n,}', repl, s)]; [run] is the run being read. *)
Fixpoint sub_runs (p : Z -> bool) (n : nat) (repl run s : str) : str :=
  match s with
  | [] => flush n repl run
  | c :: s' =>
      if p c then sub_runs p n repl (run ++ [c]) s'
      else flush n repl run ++ c :: sub_runs p n repl [] s'
  end.

Definition clean_text (text : str) : str :=
  let text := sub_url 0 text in
  let text := sub_runs (Z.eqb 33) 2 (u "!") [] text in
  let text := sub_runs (Z.eqb 63) 2 (u "?") [] text in
  let text := sub_runs (Z.eqb 46) 3 (u "...") [] text in
  let text := strip (sub_runs is_space 1 (u " ") [] text) in
  text.

Section Analyzer.
Context {U : UnicodeData} {N : Nlp}.

Definition detect_language (text : str) : str :=
  match detect text with
  | Some lang => lang
  | None => u "pt"
  end.

Definition _check_emergency_level (text : str) : str :=
  let emergency_count :=
    length (List.filter (fun keyword => substr keyword text)
                        emergency_keywords) in
  if (2 <=? emergency_count)%nat then u "high"
  else if (emergency_count =? 1)%nat then u "medium"
  else u "low".

Definition _find_keywords (text : str) : list (str * str) :=
  let found category keywords :=
    map (fun keyword => (u category, keyword))
        (List.filter (fun keyword => substr keyword text) keywords) in
  found "emergency" emergency_keywords
  ++ found "positive" positive_keywords
  ++ found "negative" negative_keywords.

(** The dictionary literal both [return] statements build. *)
Definition sentiment_dict (sentiment : str) (polarity subjectivity
  confidence : Q) (language emergency_level : str)
  (keywords_found : list (str * str)) : gmap string pyval :=
  <["sentiment" := PyStr sentiment]>
  (<["polarity" := PyFloat polarity]>
  (<["subjectivity" := PyFloat subjectivity]>
  (<["confidence" := PyFloat confidence]>
  (<["language" := PyStr language]>
  (<["emergency_level" := PyStr emergency_level]>
  (<["keywords_found" := PyPairs keywords_found]> ∅)))))).

(** [not text or len(text.strip()) < 3] *)
Definition too_short (text : str) : bool :=
  str_eqb text [] || (length (strip text) <? 3)%nat.

Definition analyze_sentiment (text : str) : gmap string pyval :=
  if too_short text then
    sentiment_dict (u "neutral") 0 0 0 (u "unknown") (u "low") []
  else
    let cleaned_text := clean_text text in
    let language := detect_language cleaned_text in
    let polarity := polarity_of cleaned_text in
    let subjectivity := subjectivity_of cleaned_text in
    let sentiment :=
      if qlt (1 # 10) polarity then u "positive"
      else if qlt polarity (- (1 # 10)) then u "negative"
      else u "neutral" in
    let confidence := Qmin (Qabs polarity + subjectivity) 1 in
    let emergency_level := _check_emergency_level (lower cleaned_text) in
    let keywords_found := _find_keywords (lower cleaned_text) in
    let '(sentiment, confidence) :=
      if str_eqb emergency_level (u "high") then
        (u "emergency", Qmax confidence (8 # 10))
      else if existsb (fun keyword => substr keyword (lower cleaned_text))
                      positive_keywords then
        if negb (str_eqb sentiment (u "emergency")) then
          (u "positive", Qmax confidence (6 # 10))
        else (sentiment, confidence)
      else if existsb (fun keyword => substr keyword (lower cleaned_text))
                      negative_keywords then
        if negb (str_eqb sentiment (u "emergency")) then
          (u "negative", Qmax confidence (6 # 10))
        else (sentiment, confidence)
      else (sentiment, confidence) in
    sentiment_dict sentiment (round3 polarity) (round3 subjectivity)
                   (round3 confidence) language emergency_level
                   keywords_found.

(** [value == 'literal'] for a value of the dictionary. *)
Definition is_str (v : pyval) (s : str) : bool :=
  match v with
  | PyStr x => str_eqb x s
  | _ => false
  end.

(** The dictionary [get_response_tone] returns: its three keys. *)
Record response_tone := {
  tone : str;
  priority : str;
  suggested_actions : list str
}.

(** [get_response_tone]: [None] is the [KeyError] of [sentiment_data]
    lacking ['sentiment'] or ['emergency_level']. *)
Definition get_response_tone (sentiment_data : gmap string pyval)
  : option response_tone :=
  sentiment ← sentiment_data !! "sentiment";
  emergency_level ← sentiment_data !! "emergency_level";
  if is_str sentiment (u "emergency") || is_str emergency_level (u "high")
  then
    Some {| tone := u "urgent_supportive"; priority := u "high";
            suggested_actions :=
              [u "Oferecer contato imediato"; u "Mencionar atendimento 24h";
               u "Ser empático e acolhedor";
               u "Não deixar a pessoa sozinha"] |}
  else if is_str sentiment (u "negative")
          || is_str emergency_level (u "medium") then
    Some {| tone := u "empathetic_supportive"; priority := u "medium";
            suggested_actions :=
              [u "Demonstrar empatia"; u "Oferecer esperança";
               u "Explicar opções de tratamento"; u "Agendar avaliação"] |}
  else if is_str sentiment (u "positive") then
    Some {| tone := u "encouraging_informative"; priority := u "normal";
            suggested_actions :=
              [u "Reforçar decisão positiva";
               u "Fornecer informações detalhadas";
               u "Facilitar próximos passos"] |}
  else
    Some {| tone := u "informative_neutral"; priority := u "normal";
            suggested_actions :=
              [u "Fornecer informações claras";
               u "Perguntar sobre necessidades específicas";
               u "Oferecer opções de contato"] |}.

(** The values of the dictionary [analyze_conversation_trend] returns. *)
Inductive trendval :=
| TrStr (s : str)
| TrFloat (x : Q)
| TrBool (b : bool)
| TrList (l : list (gmap string pyval)).

(** One entry of [sentiments]: three keys copied from an analysis;
    [None] is a [KeyError]. *)
Definition progression_entry (analysis : gmap string pyval)
  : option (gmap string pyval) :=
  sentiment ← analysis !! "sentiment";
  polarity ← analysis !! "polarity";
  emergency_level ← analysis !! "emergency_level";
  Some (<["sentiment" := sentiment]>
        (<["polarity" := polarity]>
        (<["emergency_level" := emergency_level]> ∅))).

(** [s['polarity']] as a summand: [None] is the [KeyError] of a missing
    key or the [TypeError] of adding a non-number. *)
Definition polarity_term (s : gmap string pyval) : option Q :=
  match s !! "polarity" with
  | Some (PyFloat x) => Some x
  | _ => None
  end.

(** [s['emergency_level'] == 'high']; [None] is a [KeyError]. *)
Definition entry_is_high (s : gmap string pyval) : option bool :=
  emergency_level ← s !! "emergency_level";
  Some (is_str emergency_level (u "high")).

(** [analyze_conversation_trend]: [None] stands for an exception. *)
Definition analyze_conversation_trend (messages : list str)
  : option (gmap string trendval) :=
  match messages with
  | [] =>
      Some (<["trend" := TrStr (u "neutral")]>
            (<["progression" := TrList []]> ∅))
  | _ :: _ =>
      sentiments ←
        mapM (fun message => progression_entry (analyze_sentiment message))
             messages;
      polarities ← mapM polarity_term sentiments;
      let avg_polarity :=
        match polarities with
        | [] => 0%Q
        | _ :: _ =>
            (fold_right Qplus 0 polarities
             / inject_Z (Z.of_nat (length polarities)))%Q
        end in
      highs ← mapM entry_is_high sentiments;
      let has_emergency := existsb id highs in
      let trend :=
        if has_emergency then u "emergency"
        else if qlt (1 # 10) avg_polarity then u "improving"
        else if qlt avg_polarity (- (1 # 10)) then u "declining"
        else u "stable" in
      Some (<["trend" := TrStr trend]>
            (<["average_polarity" := TrFloat (round3 avg_polarity)]>
            (<["progression" := TrList sentiments]>
            (<["has_emergency" := TrBool has_emergency]> ∅))))
  end.

End Analyzer.

End SentimentAnalyzer.

(** ** [app.py]: the chatbot *)

(** What a call into a library or a remote service does: it raises, or it
    returns. *)
Inductive outcome (A : Type) :=
| Raised
| Returned (a : A).
Arguments Raised {A}.
Arguments Returned {A} a.

(** A [requests.Response]: [json] is [None] when [response.json()] raises. *)
Record http_response (B : Type) := {
  status_code : Z;
  json : option B
}.
Arguments status_code {B} _.
Arguments json {B} _.

(** The body the Hugging Face endpoint answers with: a list of objects that
    may carry ['generated_text'], or anything else. *)
Inductive hf_item :=
| HfDict (generated_text : option str)
| HfNotDict.

Inductive hf_body :=
| HfList (items : list hf_item)
| HfNotList.

(** The body the Gemini endpoint answers with: the list under
    ['candidates'] when it is there, each candidate giving the string at
    [['content']['parts'][0]['text']] or [None] when that path is broken. *)
Record gemini_body := {
  candidates : option (list (option str))
}.

(** One entry of [conversation_history] (the timestamp is left out). *)
Record ChatMessage := {
  role : str;
  content : option str;
  sentiment : option (gmap string pyval)
}.

Inductive provider := OpenAI | HuggingFace | Gemini.

(** The process environment and the services behind the three backends. *)
Record World := {
  environ : gmap string str;                        (* os.environ *)
  client : bool;                  (* the module-level [client] is truthy *)
  chat_completions_create :
    list ChatMessage -> outcome (option str);
        (* client.chat.completions.create(...).choices[0].message.content *)
  hf_post : option str -> str -> outcome (http_response hf_body);
        (* requests.post(api_url, headers, json): bearer token, inputs *)
  gemini_post : str -> str -> outcome (http_response gemini_body);
        (* requests.post(api_url, json): API key, prompt text *)
  translate_response : str -> str -> str
        (* multilingual.translate_response, driven by translation files *)
}.

(** [os.getenv(name)] *)
Definition getenv (W : World) (name : string) : option str :=
  environ W !! name.

(** [AI_PROVIDER = os.getenv('AI_PROVIDER', 'openai')] *)
Definition AI_PROVIDER (W : World) : str :=
  default (u "openai") (getenv W "AI_PROVIDER").

(** [s.replace(old, new)] *)
Fixpoint replace_from (old new : str) (skip : nat) (s : str) : str :=
  match s with
  | [] => []
  | c :: s' =>
      match skip with
      | S k => replace_from old new k s'
      | O =>
          if startswith old s
          then new ++ replace_from old new (length old - 1) s'
          else c :: replace_from old new 0 s'
      end
  end.

Definition replace (old new s : str) : str :=
  match old with
  | [] => new ++ flat_map (fun c => c :: new) s
  | _ :: _ => replace_from old new 0 s
  end.

Module ClinicaChatbot.

(** The instance: [self.system_prompt] and [self.conversation_history]. *)
Record t := {
  system_prompt : str;
  conversation_history : list ChatMessage
}.

(** [get_response_fallback]: [tratamento_keywords] *)
Definition tratamento_keywords : list str :=
  [
    u "tratamento"; u "terapia"; u "ajuda"; u "tratar"; u "curar"; u "cura";
    u "recuperacao"; u "recuperação"; u "reabilitacao"; u "reabilitação";
    u "dependencia"; u "dependência"; u "vicio"; u "vício"; u "drogas";
    u "alcool"; u "álcool"; u "medicamento"; u "remedio"; u "remédio";
    u "psicologia"; u "psiquiatria"; u "medico"; u "médico"; u "doutor";
    u "doutora"; u "terapeuta"
  ].

(** [get_response_fallback]: [internacao_keywords] *)
Definition internacao_keywords : list str :=
  [
    u "internacao"; u "internação"; u "internar"; u "como funciona";
    u "funcionamento"; u "processo"; u "procedimento"; u "admissao";
    u "admissão"; u "entrada"; u "ingresso"; u "clinica"; u "clínica";
    u "hospital"; u "instituicao"; u "instituição"; u "centro"; u "unidade";
    u "estabelecimento"; u "local"; u "onde"; u "endereco"; u "endereço"
  ].

(** [get_response_fallback]: [convenio_keywords] *)
Definition convenio_keywords : list str :=
  [
    u "convenio"; u "convênio"; u "plano"; u "preco"; u "preço"; u "valor";
    u "custo"; u "quanto custa"; u "pagamento"; u "pagar"; u "dinheiro";
    u "financeiro"; u "orcamento"; u "orçamento"; u "seguro"; u "saude";
    u "saúde"; u "unimed"; u "bradesco"; u "sulamerica"; u "amil";
    u "particular"; u "sus"; u "gratuito"; u "gratis"; u "grátis"
  ].

(** [get_response_fallback]: [emergencia_keywords] *)
Definition emergencia_keywords : list str :=
  [
    u "emergencia"; u "emergência"; u "urgente"; u "urgencia"; u "urgência";
    u "crise"; u "socorro"; u "ajuda imediata"; u "agora"; u "rapido";
    u "rápido"; u "ja"; u "já"; u "desespero"; u "desesperad"; u "suicidio";
    u "suicídio"; u "morte"; u "morrer"; u "overdose"; u "intoxicacao";
    u "intoxicação"; u "24 horas"; u "24h"; u "plantao"; u "plantão"
  ].

(** [get_response_fallback]: [dependencia_keywords] *)
Definition dependencia_keywords : list str :=
  [
    u "dependente"; u "viciado"; u "adicto"; u "usuario"; u "usuário";
    u "consumidor"; u "crack"; u "cocaina"; u "cocaína"; u "maconha";
    u "cannabis"; u "heroina"; u "heroína"; u "ecstasy"; u "lsd";
    u "anfetamina"; u "metanfetamina"; u "opioides"; u "morfina";
    u "codeina"; u "codeína"; u "tramadol"; u "rivotril"; u "clonazepam";
    u "alprazolam"
  ].

(** [get_response_fallback]: [identificacao_keywords] *)
Definition identificacao_keywords : list str :=
  [
    u "identificar"; u "identifico"; u "reconhecer"; u "perceber";
    u "notar"; u "descobrir"; u "sinais"; u "sintomas"; u "comportamento";
    u "mudancas"; u "mudanças"; u "indicios"; u "indícios"; u "como saber";
    u "como sei"; u "como descobrir"; u "como perceber";
    u "como identificar"; u "pessoa viciada"; u "alguem viciado";
    u "alguém viciado"; u "familiar viciado"; u "caracteristicas";
    u "características"; u "manifestacoes"; u "manifestações";
    u "evidencias"; u "evidências"; u "pistas"; u "alertas"; u "avisos"
  ].

(** [get_response_fallback]: [contato_keywords] *)
Definition contato_keywords : list str :=
  [
    u "telefone"; u "fone"; u "numero"; u "número"; u "contato"; u "ligar";
    u "falar"; u "comunicar"; u "entrar em contato"; u "como falar";
    u "como ligar"; u "telefone da clinica"; u "telefone da clínica";
    u "numero da clinica"; u "número da clínica"; u "contato da clinica";
    u "contato da clínica"; u "como entrar em contato"; u "whatsapp";
    u "celular"; u "fixo"; u "ramal"; u "atendimento"; u "recepcao";
    u "recepção"
  ].

(** [get_response]: its own, longer [tratamento_keywords] *)
Definition tratamento_keywords_ia : list str :=
  [
    u "tratamento"; u "terapia"; u "ajuda"; u "tratar"; u "curar"; u "cura";
    u "recuperacao"; u "recuperação"; u "reabilitacao"; u "reabilitação";
    u "dependencia"; u "dependência"; u "vicio"; u "vício"; u "drogas";
    u "alcool"; u "álcool"; u "medicamento"; u "remedio"; u "remédio";
    u "psicologia"; u "psiquiatria"; u "medico"; u "médico"; u "doutor";
    u "doutora"; u "terapeuta"; u "12 passos"; u "doze passos";
    u "programa"; u "como funciona"; u "funciona"; u "funcionamento";
    u "desintoxicacao"; u "desintoxicação"; u "tcc"; u "cognitivo";
    u "comportamental"; u "individual"; u "grupo"; u "familiar";
    u "atividades"; u "psiquiatrico"; u "psiquiátrico"; u "apoio";
    u "grupos"; u "mais sobre"; u "fale mais"; u "explique"; u "detalhe";
    u "detalhes"
  ].

(** [get_response]: its own [dependencia_keywords] *)
Definition dependencia_keywords_ia : list str :=
  [
    u "dependente"; u "viciado"; u "adicto"; u "usuario"; u "usuário";
    u "consumidor"; u "crack"; u "cocaina"; u "cocaína"; u "maconha";
    u "cannabis"; u "heroina"; u "heroína"; u "ecstasy"; u "lsd";
    u "anfetamina"; u "metanfetamina"; u "opioides"; u "morfina";
    u "codeina"; u "codeína"; u "tramadol"; u "rivotril"; u "clonazepam";
    u "alprazolam"
  ].

(** [detect_urgency_and_create_ticket]: [high_priority_keywords] *)
Definition high_priority_keywords : list str :=
  [
    u "emergência"; u "urgente"; u "socorro"; u "ajuda"; u "crise";
    u "overdose"; u "suicídio"; u "morte"; u "morrer"; u "desespero";
    u "não aguento"; u "vou me matar"; u "acabar com tudo"
  ].

(** [detect_urgency_and_create_ticket]: [medium_priority_keywords] *)
Definition medium_priority_keywords : list str :=
  [
    u "internação"; u "internar"; u "tratamento"; u "dependência";
    u "vício"; u "drogas"; u "álcool"; u "bebida"; u "cocaína"; u "crack";
    u "maconha"; u "remédio"; u "medicamento"
  ].

(** [get_response_fallback]: the answer on the signs of addiction *)
Definition resposta_identificacao : str :=
    u "🔍 **COMO IDENTIFICAR UMA PESSOA VICIADA:**
            
⚠️ **Sinais Físicos:**
• Mudanças bruscas de peso (perda ou ganho)
• Olhos vermelhos, pupilas dilatadas ou contraídas
• Tremores nas mãos
• Falta de higiene pessoal
• Marcas de agulhas (no caso de drogas injetáveis)
• Odor estranho na roupa ou hálito
• Sonolência excessiva ou insônia

🧠 **Sinais Comportamentais:**
• Mudanças drásticas de humor
• Isolamento social e familiar
• Mentiras frequentes
• Roubo de dinheiro ou objetos
• Abandono de responsabilidades
• Perda de interesse em atividades antes prazerosas
• Agressividade ou irritabilidade

💼 **Sinais Sociais:**
• Problemas no trabalho ou escola
• Mudança de círculo de amizades
• Problemas financeiros inexplicáveis
• Conflitos familiares constantes
• Negligência com filhos ou família

🚨 **IMPORTANTE:**
Se você identificou esses sinais em alguém próximo, procure ajuda profissional imediatamente.

📞 **Nossa clínica oferece:**
• Avaliação especializada
• Orientação familiar
• Intervenção profissional
• Tratamento personalizado

Ligue: (11) 99999-9999".

(** [get_response_fallback]: the answer on admission *)
Definition resposta_internacao : str :=
    u "Nossa internação funciona da seguinte forma:
            
📋 **Processo de Admissão:**
• Avaliação médica inicial
• Entrevista com psicólogo
• Plano de tratamento personalizado
• Documentação necessária

🏥 **Durante a Internação:**
• Acompanhamento 24h por equipe especializada
• Atividades terapêuticas diárias
• Consultas médicas regulares
• Suporte familiar
• Atividades recreativas

📍 **Tipos de Internação:**
• Voluntária (com consentimento)
• Involuntária (solicitação familiar)
• Compulsória (determinação judicial)

Para mais detalhes, ligue: (11) 99999-9999".

(** [get_response_fallback]: the answer on insurance and prices *)
Definition resposta_convenio : str :=
    u "💰 **Informações sobre Convênios e Valores:**
            
🏥 **Convênios Aceitos:**
• Unimed
• Bradesco Saúde
• SulAmérica
• Amil
• Golden Cross
• Outros convênios médicos

💳 **Formas de Pagamento:**
• Convênio médico
• Particular
• Parcelamento facilitado
• Cartão de crédito/débito

📋 **Para Verificar:**
• Cobertura do seu plano
• Valores atualizados
• Documentação necessária
• Autorização do convênio

Ligue para verificar: (11) 99999-9999".

(** [get_response_fallback]: the answer to an emergency *)
Definition resposta_emergencia : str :=
    u "🚨 **ATENDIMENTO DE EMERGÊNCIA 24H** 🚨
            
⚠️ **Se você ou alguém próximo está em crise:**
            
📞 **LIGUE IMEDIATAMENTE:**
• Clínica: (11) 99999-9999
• SAMU: 192
• Bombeiros: 193
• CVV: 188 (prevenção suicídio)

🏥 **Nossos Serviços de Emergência:**
• Atendimento 24h disponível
• Equipe especializada em crises
• Internação de urgência
• Suporte imediato para famílias
• Remoção especializada

💙 **Não hesite em buscar ajuda!**
Estamos aqui para apoiar você neste momento difícil.".

(** [get_response_fallback]: the contact answer *)
Definition resposta_contato : str :=
    u "📞 **INFORMAÇÕES DE CONTATO DA CLÍNICA:**
            
🏥 **Nossa Clínica de Reabilitação**

📱 **Telefone Principal:**
• (11) 99999-9999

🕐 **Horários de Atendimento:**
• Segunda a Sexta: 8h às 18h
• Sábados: 8h às 12h
• Emergências: 24h por dia

📋 **Nosso atendimento oferece:**
• Informações sobre tratamentos
• Agendamento de avaliações
• Orientação para famílias
• Suporte em crises
• Esclarecimentos sobre convênios

💬 **Você também pode:**
• Continuar conversando aqui comigo
• Fazer perguntas sobre nossos serviços
• Solicitar informações específicas

📞 **Ligue agora: (11) 99999-9999**
Estamos prontos para ajudar você!".

(** [get_response_fallback]: the greeting of the last branch *)
Definition resposta_saudacao : str :=
    u "👋 **Olá! Sou o assistente virtual da Clínica Espaço Vida.**
            
🏥 **Posso ajudar com informações sobre:**
• Tratamentos disponíveis
• Processo de internação
• Convênios e valores
• Atendimento de emergência
• Tipos de dependência
• Suporte familiar

💬 **Exemplos do que você pode perguntar:**
• " ++ dq ++ u "Como funciona o tratamento?" ++ dq ++ u "
• " ++ dq ++ u "Quais convênios vocês aceitam?" ++ dq ++ u "
• " ++ dq ++ u "Preciso de ajuda urgente" ++ dq ++ u "
• " ++ dq ++ u "Como internar alguém?" ++ dq ++ u "

📞 **Para atendimento personalizado:**
Ligue: (11) 99999-9999

❓ **Como posso ajudar você hoje?**".

(** [get_response]: the generic answer used when the fallback defers *)
Definition resposta_generica : str :=
    u "Nossa clínica oferece diversos tratamentos especializados:
            
• Desintoxicação médica supervisionada
• Terapia individual e em grupo
• Programa de 12 Passos
• Terapia Cognitivo-Comportamental (TCC)
• Terapia familiar
• Atividades terapêuticas
• Acompanhamento psiquiátrico
• Grupos de apoio

Tratamos dependência de:
• Álcool e drogas
• Medicamentos
• Jogos e outras compulsões

Para mais informações, entre em contato: (11) 99999-9999".


Section Chatbot.
Context {U : UnicodeData} {N : Nlp}.
Variable W : World.

Definition get_response_openai (self : t) (user_message : str)
  : option str :=
  let messages :=
    {| role := u "system"; content := Some (system_prompt self);
       sentiment := None |}
    :: last_n 10 (conversation_history self) in
  match chat_completions_create W messages with
  | Returned text => text
  | Raised => None
  end.

(** [payload['inputs']] of [get_response_huggingface] *)
Definition hf_inputs (user_message : str) : str :=
  u "Contexto: Você é um assistente de uma clínica de reabilitação "
  ++ u "especializada em dependência química e saúde mental."
  ++ [10; 10] ++ u "Pergunta: " ++ user_message
  ++ [10; 10] ++ u "Resposta:".

Definition get_response_huggingface (self : t) (user_message : str)
  : option str :=
  let headers :=
    if falsy (getenv W "HUGGINGFACE_API_KEY") then None
    else getenv W "HUGGINGFACE_API_KEY" in
  let inputs := hf_inputs user_message in
  match hf_post W headers inputs with
  | Returned response =>
      if status_code response =? 200 then
        match json response with
        | Some (HfList (HfDict generated_text :: _)) =>
            Some (strip (replace inputs [] (default [] generated_text)))
        | Some (HfList (HfNotDict :: _)) => None      (* AttributeError *)
        | Some (HfList []) => None
        | Some HfNotList => None
        | None => None                          (* response.json() raised *)
        end
      else None
  | Raised => None
  end.

(** The prompt text of [get_response_gemini] *)
Definition gemini_text (self : t) (user_message : str) : str :=
  system_prompt self ++ [10; 10] ++ u "Usuário: " ++ user_message
  ++ [10; 10] ++ u "Assistente:".

Definition get_response_gemini (self : t) (user_message : str)
  : option str :=
  let api_key := default [] (getenv W "GOOGLE_API_KEY") in
  if str_eqb api_key [] then None
  else
    match gemini_post W api_key (gemini_text self user_message) with
    | Returned response =>
        if status_code response =? 200 then
          match json response with
          | Some {| candidates := Some (Some text :: _) |} => Some text
          | Some {| candidates := Some (None :: _) |} => None  (* KeyError *)
          | Some {| candidates := Some [] |} => None
          | Some {| candidates := None |} => None
          | None => None                        (* response.json() raised *)
          end
        else None
    | Raised => None
    end.

Definition get_response_fallback (user_message : str) : option str :=
  if contains_keywords user_message identificacao_keywords then
    Some resposta_identificacao
  else if contains_keywords user_message
            (tratamento_keywords ++ dependencia_keywords) then
    None
  else if contains_keywords user_message internacao_keywords then
    Some resposta_internacao
  else if contains_keywords user_message convenio_keywords then
    Some resposta_convenio
  else if contains_keywords user_message emergencia_keywords then
    Some resposta_emergencia
  else if contains_keywords user_message contato_keywords then
    Some resposta_contato
  else
    Some resposta_saudacao.

(** The [lead_data] handed to [crm_integration.sync_lead]. *)
Record lead_data := {
  lead_session_id : option str;
  lead_message : str;
  urgency : str;
  source : str;
  lead_sentiment : option (gmap string pyval)
}.

(** The method returns nothing; its effect is the CRM call, so the model
    returns the lead it sends, or [None] when the outer [try] swallowed an
    exception before the call. *)
Definition detect_urgency_and_create_ticket (user_message : str)
  (session_id : option str) (sentiment_result : option (gmap string pyval))
  : option lead_data :=
  let user_input_lower := lower user_message in
  let priority := u "baixa" in
  let priority :=
    if existsb (fun keyword => substr keyword user_input_lower)
               high_priority_keywords then u "alta"
    else if existsb (fun keyword => substr keyword user_input_lower)
                    medium_priority_keywords then u "média"
    else priority in
  let adjusted : option str :=
    match sentiment_result with
    | Some d =>
        if bool_decide (d = ∅) then Some priority
        else
          match get_float d "polarity" 0 with
          | None => None                                    (* TypeError *)
          | Some polarity =>
              if qlt polarity (- (5 # 10))
                 && truthy_get d "emergency_keywords"
              then Some (u "alta")
              else if qlt polarity (- (3 # 10)) then
                if str_eqb priority (u "baixa") then Some (u "média")
                else Some priority
              else Some priority
          end
    | None => Some priority
    end in
  match adjusted with
  | Some priority =>
      Some {| lead_session_id := session_id; lead_message := user_message;
              urgency := priority; source := u "chatbot";
              lead_sentiment := sentiment_result |}
  | None => None
  end.

(** The priority after the keyword pass of
    [detect_urgency_and_create_ticket] alone (lines 605-612). *)
Definition keyword_priority (user_message : str) : str :=
  let user_input_lower := lower user_message in
  if existsb (fun keyword => substr keyword user_input_lower)
             high_priority_keywords then u "alta"
  else if existsb (fun keyword => substr keyword user_input_lower)
                  medium_priority_keywords then u "média"
  else u "baixa".

(** The order of the three priorities. *)
Definition priority_rank (priority : str) : nat :=
  if str_eqb priority (u "alta") then 2
  else if str_eqb priority (u "média") then 1
  else 0.

(** Lines 538-549 of [get_response]: the providers in turn, each skipped
    once [response] is truthy. The second component lists the backends
    that were called, in order. *)
Definition provider_chain (self : t) (user_message : str)
  : option str * list provider :=
  let '(response, calls) :=
    if str_eqb (AI_PROVIDER W) (u "openai") && client W
    then (get_response_openai self user_message, [OpenAI])
    else (None, []) in
  let '(response, calls) :=
    if falsy response
    then (get_response_huggingface self user_message,
          calls ++ [HuggingFace])
    else (response, calls) in
  let '(response, calls) :=
    if falsy response
    then (get_response_gemini self user_message, calls ++ [Gemini])
    else (response, calls) in
  (response, calls).

(** What [get_response] returns and leaves behind. *)
Record answer := {
  response : option str;
  self_after : t;
  calls : list provider;
  lead : option lead_data
}.

(** [self.conversation_history.append(entry)] *)
Definition append (self : t) (entry : ChatMessage) : t :=
  {| system_prompt := system_prompt self;
     conversation_history := conversation_history self ++ [entry] |}.

(** The instance once the message of the user is in its history. *)
Definition heard (self : t) (user_message : str) : t :=
  append self
    {| role := u "user"; content := Some user_message;
       sentiment :=
         Some (SentimentAnalyzer.analyze_sentiment user_message) |}.

Definition get_response (self : t) (user_message : str)
  (conversation_id : option str) (language : str) : answer :=
  let sentiment_result := SentimentAnalyzer.analyze_sentiment user_message in
  let lead :=
    detect_urgency_and_create_ticket user_message conversation_id
                                     (Some sentiment_result) in
  let self := heard self user_message in
  let is_treatment_question :=
    contains_keywords user_message
                      (tratamento_keywords_ia ++ dependencia_keywords_ia) in
  let '(response, calls) :=
    if is_treatment_question || negb (str_eqb (AI_PROVIDER W) (u "fallback"))
    then provider_chain self user_message
    else (None, []) in
  let response :=
    if falsy response then
      let response := get_response_fallback user_message in
      if falsy response then Some resposta_generica else response
    else response in
  let response :=
    if negb (str_eqb language (u "pt")) then
      match response with
      | Some r => Some (translate_response W r language)
      | None => None
      end
    else response in
  let self :=
    append self
      {| role := u "assistant"; content := response; sentiment := None |} in
  {| response := response; self_after := self; calls := calls;
     lead := lead |}.

End Chatbot.

End ClinicaChatbot.

(** ** [database.py]: the two tables the chat route writes *)

Module DatabaseManager.

(** A row of [conversations]. *)
Record conversation := {
  conv_session_id : str;
  conv_user_message : str;
  conv_bot_response : str
}.

(** A row of [tickets]; the columns no caller here fills are left out. *)
Record ticket := {
  ticket_id : Z;
  ticket_session_id : str;
  ticket_title : str;
  ticket_description : str;
  ticket_status : str;
  ticket_priority : str
}.

Record t := {
  conversations : list conversation;
  tickets : list ticket
}.

(** [AUTOINCREMENT]: one more than the largest id of the table. *)
Definition next_id (db : t) : Z :=
  1 + fold_right Z.max 0 (map ticket_id (tickets db)).

(** [save_conversation]: [None] is the [IntegrityError] of a [NOT NULL]
    column given [None]. *)
Definition save_conversation (db : t) (session_id : option str)
  (user_message : str) (bot_response : option str) : option t :=
  match session_id, bot_response with
  | Some sid, Some r =>
      Some {| conversations :=
                conversations db
                ++ [{| conv_session_id := sid;
                       conv_user_message := user_message;
                       conv_bot_response := r |}];
              tickets := tickets db |}
  | _, _ => None
  end.

(** [create_ticket]: the new id and the table, or [None] for the
    [IntegrityError] of [session_id TEXT NOT NULL]. *)
Definition create_ticket (db : t) (session_id : option str)
  (title description priority : str) : option (Z * t) :=
  match session_id with
  | Some sid =>
      let id := next_id db in
      Some (id,
            {| conversations := conversations db;
               tickets :=
                 tickets db
                 ++ [{| ticket_id := id; ticket_session_id := sid;
                        ticket_title := title;
                        ticket_description := description;
                        ticket_status := u "aberto";
                        ticket_priority := priority |}] |})
  | None => None
  end.

(** [get_tickets_by_session]: [WHERE session_id = ?] selects nothing for
    [None]; the rows come newest first. *)
Definition get_tickets_by_session (db : t) (session_id : option str)
  : list ticket :=
  match session_id with
  | Some sid =>
      rev (List.filter (fun tk => str_eqb (ticket_session_id tk) sid)
                       (tickets db))
  | None => []
  end.

End DatabaseManager.

(** ** [app.py]: the [/chat] route *)

Module Route.

(** The JSON body of the request and the cookie session. *)
Record request := {
  message : option str;                (* data.get('message', '') *)
  session_id : option str;             (* data.get('session_id') *)
  conversation_id : option str         (* session.get('conversation_id') *)
}.

(** The globals [chatbot] and [db_manager]. *)
Record server := {
  chatbot : ClinicaChatbot.t;
  db : DatabaseManager.t
}.

(** The calls of the ticket block that leave the process. *)
Inductive event :=
| CreateTicket (session : option str) (title description priority : str)
| SendTicketNotification (ticket_id : Z).

Inductive reply :=
| BadRequest                                          (* 'Mensagem vazia' *)
| Ok (response : option str) (session : option str).

(** [a or b] on two optional strings. *)
Definition or_else (a b : option str) : option str :=
  if falsy a then b else a.

(** [session_id or conversation_id], the key the route files under. *)
Definition session_key (req : request) : option str :=
  or_else (session_id req) (conversation_id req).

(** The keywords of the inline priority test of the route. *)
Definition chat_priority_keywords : list str :=
  [u "urgente"; u "emergência"; u "ajuda imediata"; u "socorro"].

Section Chat.
Context {U : UnicodeData} {N : Nlp}.
Variable W : World.

Definition chat (srv : server) (req : request)
  : reply * server * list event :=
  let user_message := strip (default [] (message req)) in
  if str_eqb user_message [] then (BadRequest, srv, [])
  else
    let a :=
      ClinicaChatbot.get_response W (chatbot srv) user_message
                                  (conversation_id req) (u "pt") in
    let bot_response := ClinicaChatbot.response a in
    let key := session_key req in
    let db1 :=
      match DatabaseManager.save_conversation (db srv) key user_message
                                              bot_response with
      | Some db' => db'
      | None => db srv
      end in
    let existing_tickets := DatabaseManager.get_tickets_by_session db1 key in
    let '(db2, events) :=
      match existing_tickets with
      | [] =>
          let priority :=
            if existsb (fun keyword => substr keyword (lower user_message))
                       chat_priority_keywords
            then u "alta" else u "media" in
          let title :=
            u "Nova conversa - " ++ slice_to 50 user_message
            ++ (if (50 <? length user_message)%nat then u "..." else []) in
          let description := u "Primeira mensagem: " ++ user_message in
          let call := CreateTicket key title description priority in
          match DatabaseManager.create_ticket db1 key title description
                                              priority with
          | Some (ticket_id, db') =>
              (db', [call; SendTicketNotification ticket_id])
          | None => (db1, [call])
          end
      | _ :: _ => (db1, [])
      end in
    (Ok bot_response key,
     {| chatbot := ClinicaChatbot.self_after a; db := db2 |},
     events).

(** The route serving a sequence of requests, one after the other. *)
Fixpoint serve (srv : server) (reqs : list request)
  : server * list event :=
  match reqs with
  | [] => (srv, [])
  | req :: reqs' =>
      let '(_, srv', events) := chat srv req in
      let '(srv'', events') := serve srv' reqs' in
      (srv'', events ++ events')
  end.

End Chat.

(** *** Observations on a run *)

(** The request carries a message that is not blank: the route answers
    it. *)
Definition accepted (req : request) : bool :=
  negb (str_eqb (strip (default [] (message req))) []).

(** The request carries a message that is not blank and is filed under
    session [s]. *)
Definition from_session (s : str) (req : request) : bool :=
  negb (str_eqb (strip (default [] (message req))) [])
  && bool_decide (session_key req = Some s).

(** The event is a call of [create_ticket] for session [s]. *)
Definition is_creation (s : str) (e : event) : bool :=
  match e with
  | CreateTicket (Some s') _ _ _ => str_eqb s' s
  | _ => false
  end.

Definition creations (s : str) (events : list event) : nat :=
  length (List.filter (is_creation s) events).

(** Session [s] has no ticket in the table. *)
Definition no_ticket (db : DatabaseManager.t) (s : str) : bool :=
  match DatabaseManager.get_tickets_by_session db (Some s) with
  | [] => true
  | _ :: _ => false
  end.

End Route.

(** ** What the proofs need of the Unicode character database *)

(** EN QUAD and EM QUAD, the two whitespace characters that have a
    canonical decomposition (to EN SPACE and EM SPACE). *)
Definition is_quad (c : Z) : bool := (c =? 0x2000) || (c =? 0x2001).

(** Lowercase ASCII letters, digits and whitespace that NFD leaves alone. *)
Definition plain (c : Z) : bool := kept c && negb (is_quad c).

(** A character that is neither whitespace nor COMBINING DOT ABOVE, the
    one character [str.lower] ever adds (to lowercase U+0130). *)
Definition solid (c : Z) : bool := negb (is_space c) && negb (c =? 0x307).

Definition nonspace (c : Z) : bool := negb (is_space c).

Definition count (p : Z -> bool) (s : str) : nat :=
  length (List.filter p s).

(** Facts of the character database of CPython, on which the proofs about
    arbitrary texts rest.
    - [nfd_plain]: ASCII letters and digits have no decomposition, and the
      only whitespace characters with a canonical one are the two quads.
    - [nfd_decomposed]: a text in NFD holds no character that has a
      canonical decomposition, hence neither quad.
    - [Mn_not_kept]: letters, digits and whitespace are not of category Mn.
    - [lower_kept]: lowercase letters, digits and whitespace have no
      lowercase form other than themselves.
    - [lower_space]: lowercasing produces no whitespace.
    - [lower_solid]: a character lowercases to one character, except
      U+0130, which gives [i] and a combining dot; whitespace stays
      whitespace. *)
Class UnicodeLaws (U : UnicodeData) : Prop := {
  nfd_plain : forall s, forallb plain s = true -> nfd s = s;
  nfd_decomposed : forall s c, In c (nfd s) -> is_quad c = false;
  Mn_not_kept : forall c, kept c = true -> is_Mn c = false;
  lower_kept : forall s, forallb kept s = true -> lower s = s;
  lower_space : forall s c, In c (lower s) -> is_space c = true -> In c s;
  lower_solid :
    forall s, (count solid (lower s) <= count nonspace s)%nat
}.

(** No two whitespace characters in a row. *)
Fixpoint no_double_space (s : str) : bool :=
  match s with
  | [] => true
  | c :: s' =>
      match s' with
      | d :: _ => negb (is_space c && is_space d) && no_double_space s'
      | [] => true
      end
  end.

(** ** The tables on Basic Latin and Latin-1 *)

Module Latin1.

(** Canonical decompositions of U+00C0..U+00FF, in order. *)
Definition table : list (list Z) :=
  [ [65; 0x300]; [65; 0x301]; [65; 0x302]; [65; 0x303]; [65; 0x308];
    [65; 0x30A]; [0xC6]; [67; 0x327];
    [69; 0x300]; [69; 0x301]; [69; 0x302]; [69; 0x308];
    [73; 0x300]; [73; 0x301]; [73; 0x302]; [73; 0x308];
    [0xD0]; [78; 0x303];
    [79; 0x300]; [79; 0x301]; [79; 0x302]; [79; 0x303]; [79; 0x308];
    [0xD7]; [0xD8];
    [85; 0x300]; [85; 0x301]; [85; 0x302]; [85; 0x308];
    [89; 0x301]; [0xDE]; [0xDF];
    [97; 0x300]; [97; 0x301]; [97; 0x302]; [97; 0x303]; [97; 0x308];
    [97; 0x30A]; [0xE6]; [99; 0x327];
    [101; 0x300]; [101; 0x301]; [101; 0x302]; [101; 0x308];
    [105; 0x300]; [105; 0x301]; [105; 0x302]; [105; 0x308];
    [0xF0]; [110; 0x303];
    [111; 0x300]; [111; 0x301]; [111; 0x302]; [111; 0x303]; [111; 0x308];
    [0xF7]; [0xF8];
    [117; 0x300]; [117; 0x301]; [117; 0x302]; [117; 0x308];
    [121; 0x301]; [0xFE]; [121; 0x308] ].

Definition decompose (c : Z) : list Z :=
  if (0xC0 <=? c) && (c <=? 0xFF) then
    default [c] (table !! Z.to_nat (c - 0xC0))
  else if c =? 0x2000 then [0x2002]
  else if c =? 0x2001 then [0x2003]
  else [c].

Definition lower_char (c : Z) : Z :=
  if ((65 <=? c) && (c <=? 90))
     || ((0xC0 <=? c) && (c <=? 0xDE) && negb (c =? 0xD7))
  then c + 32 else c.

(** The database restricted to texts of U+0000..U+00FF: precomposed
    letters are split, the marks of U+0300..U+036F are the nonspacing
    ones, and case is that of the two blocks. *)
Definition tables : UnicodeData := {|
  nfd := flat_map decompose;
  is_Mn := fun c => (0x300 <=? c) && (c <=? 0x36F);
  lower := map lower_char
|}.

End Latin1.

(** ** Stand-ins for the outer world *)

(** A scorer that gives every text the same scores, and Portuguese. *)
Definition constant_nlp (polarity subjectivity : Q) : Nlp := {|
  detect := fun _ => Some (u "pt");
  polarity_of := fun _ => polarity;
  subjectivity_of := fun _ => subjectivity
|}.

(** No variable set, an OpenAI client that raises, no route to the other
    two services. *)
Definition offline : World := {|
  environ := ∅;
  client := true;
  chat_completions_create := fun _ => Raised;
  hf_post := fun _ _ => Raised;
  gemini_post := fun _ _ => Raised;
  translate_response := fun r _ => r
|}.

(** As [offline], with the given variables and an OpenAI service that
    answers [text]. *)
Definition openai_answers (env : gmap string str) (text : str) : World := {|
  environ := env;
  client := true;
  chat_completions_create := fun _ => Returned (Some text);
  hf_post := fun _ _ => Raised;
  gemini_post := fun _ _ => Raised;
  translate_response := fun r _ => r
|}.

(** As [offline], with the given variables and a Hugging Face service
    that answers status 200 and one object holding [text]. *)
Definition huggingface_answers (env : gmap string str) (text : str)
  : World := {|
  environ := env;
  client := true;
  chat_completions_create := fun _ => Raised;
  hf_post := fun _ _ =>
    Returned {| status_code := 200;
                json := Some (HfList [HfDict (Some text)]) |};
  gemini_post := fun _ _ => Raised;
  translate_response := fun r _ => r
|}.

(** As [offline], with a Hugging Face service that answers status 200
    and one object whose text is the prompt followed by [text]. *)
Definition huggingface_echoes (text : str) : World := {|
  environ := ∅;
  client := true;
  chat_completions_create := fun _ => Raised;
  hf_post := fun _ inputs =>
    Returned {| status_code := 200;
                json := Some (HfList [HfDict (Some (inputs ++ text))]) |};
  gemini_post := fun _ _ => Raised;
  translate_response := fun r _ => r
|}.

Definition new_chatbot : ClinicaChatbot.t := {|
  ClinicaChatbot.system_prompt := u "Você é um assistente virtual";
  ClinicaChatbot.conversation_history := []
|}.

Definition empty_db : DatabaseManager.t := {|
  DatabaseManager.conversations := [];
  DatabaseManager.tickets := []
|}.

(** ** Shapes of texts *)

(** The text does not start with whitespace. *)
Definition starts_solid (s : str) : Prop :=
  match s with
  | [] => True
  | c :: _ => is_space c = false
  end.

(** The only whitespace of the text is U+0020. *)
Definition only_plain_spaces (s : str) : bool :=
  forallb (fun c => negb (is_space c) || (c =? 32)) s.

(** * Properties *)

(** ** Arithmetic on character classes *)

Ltac bool_to_Z :=
  repeat match goal with
  | H : _ && _ = true |- _ => apply andb_true_iff in H; destruct H
  | H : negb _ = true |- _ => apply negb_true_iff in H
  | H : negb _ = false |- _ => apply negb_false_iff in H
  end;
  rewrite ?andb_true_iff, ?orb_true_iff, ?andb_false_iff, ?orb_false_iff,
    ?negb_true_iff, ?negb_false_iff,
    ?Z.leb_le, ?Z.leb_gt, ?Z.eqb_eq, ?Z.eqb_neq, ?Z.ltb_lt, ?Z.ltb_ge in *.

Lemma space_is_kept c : is_space c = true -> kept c = true.
Proof. unfold kept. intros ->. apply orb_true_r. Qed.

Lemma plain_is_kept c : plain c = true -> kept c = true.
Proof. unfold plain. intros H. bool_to_Z. tauto. Qed.

Lemma forallb_plain_kept s : forallb plain s = true -> forallb kept s = true.
Proof.
  rewrite !forallb_forall. intros H c Hc. apply plain_is_kept, H, Hc.
Qed.

Lemma filter_all {A} (p : A -> bool) (l : list A) :
  forallb p l = true -> List.filter p l = l.
Proof.
  induction l as [|a l IH]; simpl; [reflexivity|].
  intros H. apply andb_true_iff in H as [-> Hl]. f_equal. auto.
Qed.

Lemma forallb_filter {A} (p : A -> bool) (l : list A) :
  forallb p (List.filter p l) = true.
Proof.
  induction l as [|a l IH]; simpl; [reflexivity|].
  destruct (p a) eqn:E; simpl; rewrite ?E; auto.
Qed.

Lemma filter_filter_implied {A} (p q : A -> bool) (l : list A) :
  (forall a, p a = true -> q a = true) ->
  List.filter p (List.filter q l) = List.filter p l.
Proof.
  intros Hpq. induction l as [|a l IH]; simpl; [reflexivity|].
  destruct (q a) eqn:Eq; simpl.
  - destruct (p a); [f_equal|]; exact IH.
  - destruct (p a) eqn:Ep; [|exact IH].
    apply Hpq in Ep. congruence.
Qed.

(** ** The Latin-1 tables obey the laws *)

Module Latin1Facts.
Import Latin1.

Lemma decompose_plain c : plain c = true -> decompose c = [c].
Proof.
  unfold plain, kept, is_lower_az, is_digit, is_space, is_quad, decompose.
  intros H.
  destruct ((0xC0 <=? c) && (c <=? 0xFF)) eqn:E1.
  { exfalso. bool_to_Z. lia. }
  destruct (c =? 0x2000) eqn:E2.
  { exfalso. bool_to_Z. lia. }
  destruct (c =? 0x2001) eqn:E3.
  { exfalso. bool_to_Z. lia. }
  reflexivity.
Qed.

Lemma table_no_quad :
  Forall (Forall (fun c => is_quad c = false)) table.
Proof. repeat (constructor; [repeat constructor|]). constructor. Qed.

Lemma decompose_no_quad d c : In c (decompose d) -> is_quad c = false.
Proof.
  unfold decompose.
  destruct ((0xC0 <=? d) && (d <=? 0xFF)) eqn:E1.
  - destruct (table !! Z.to_nat (d - 0xC0)) as [l|] eqn:El; simpl.
    + intros Hc.
      pose proof (proj1 (Forall_lookup _ _) table_no_quad _ _ El) as Hl.
      rewrite Forall_forall in Hl. apply Hl, list_elem_of_In, Hc.
    + intros [<-|[]]. unfold is_quad. bool_to_Z. lia.
  - destruct (d =? 0x2000) eqn:E2; [intros [<-|[]]; reflexivity|].
    destruct (d =? 0x2001) eqn:E3; [intros [<-|[]]; reflexivity|].
    intros [<-|[]]. unfold is_quad. rewrite E2, E3. reflexivity.
Qed.

Lemma lower_char_kept c : kept c = true -> lower_char c = c.
Proof.
  unfold kept, is_lower_az, is_digit, is_space, lower_char. intros H.
  destruct (((65 <=? c) && (c <=? 90))
            || ((0xC0 <=? c) && (c <=? 0xDE) && negb (c =? 0xD7))) eqn:E;
    [|reflexivity].
  exfalso. bool_to_Z. lia.
Qed.

Lemma lower_char_space d :
  is_space (lower_char d) = true -> lower_char d = d.
Proof.
  unfold is_space, lower_char.
  destruct (((65 <=? d) && (d <=? 90))
            || ((0xC0 <=? d) && (d <=? 0xDE) && negb (d =? 0xD7))) eqn:E;
    [|reflexivity].
  intros H. exfalso. bool_to_Z. lia.
Qed.

Lemma lower_char_solid d :
  solid (lower_char d) = true -> is_space d = false.
Proof.
  unfold solid. intros H. apply andb_true_iff in H as [H _].
  apply negb_true_iff in H.
  destruct (is_space d) eqn:Ed; [|reflexivity].
  rewrite (lower_char_kept d (space_is_kept d Ed)) in H. congruence.
Qed.

Lemma laws : UnicodeLaws tables.
Proof.
  split; simpl.
  - induction s as [|c s IH]; simpl; [reflexivity|].
    intros H. apply andb_true_iff in H as [Hc Hs].
    rewrite (decompose_plain c Hc), (IH Hs). reflexivity.
  - intros s c Hc. apply in_flat_map in Hc as (d & _ & Hd).
    exact (decompose_no_quad d c Hd).
  - intros c. unfold kept, is_lower_az, is_digit, is_space. intros H.
    apply andb_false_iff. bool_to_Z. lia.
  - induction s as [|c s IH]; simpl; [reflexivity|].
    intros H. apply andb_true_iff in H as [Hc Hs].
    rewrite (lower_char_kept c Hc), (IH Hs). reflexivity.
  - intros s c Hc Hsp. apply in_map_iff in Hc as (d & <- & Hd).
    rewrite (lower_char_space d Hsp). exact Hd.
  - unfold count. induction s as [|d s IH]; simpl; [lia|].
    destruct (solid (lower_char d)) eqn:E.
    + assert (nonspace d = true) as ->
        by (unfold nonspace; rewrite (lower_char_solid d E); reflexivity).
      simpl. lia.
    + destruct (nonspace d); simpl; lia.
Qed.

End Latin1Facts.

(** ** The text normalizer *)

Lemma normalize_text_kept {U : UnicodeData} (x : str) :
  forallb kept (normalize_text x) = true.
Proof. unfold normalize_text. apply forallb_filter. Qed.

Lemma quad_is_space c : is_quad c = true -> is_space c = true.
Proof. unfold is_quad, is_space. intros H. bool_to_Z. lia. Qed.

Section NormalizerFacts.
Context {U : UnicodeData} {L : UnicodeLaws U}.

(** The output holds no character that a second pass would touch. *)
Lemma normalize_text_output_plain (x : str) :
  forallb plain (normalize_text x) = true.
Proof.
  apply forallb_forall. intros c Hc. unfold normalize_text in Hc.
  apply filter_In in Hc as [Hc Hk]. unfold plain. rewrite Hk. simpl.
  destruct (is_quad c) eqn:Hq; [|reflexivity]. exfalso.
  pose proof (lower_space _ c Hc (quad_is_space c Hq)) as Hm.
  apply filter_In in Hm as [Hn _].
  pose proof (nfd_decomposed _ c Hn). congruence.
Qed.

Lemma normalize_text_plain (x : str) :
  forallb plain x = true -> normalize_text x = x.
Proof.
  intros Hx. unfold normalize_text.
  pose proof (forallb_plain_kept x Hx) as Hk.
  rewrite (nfd_plain x Hx).
  rewrite (filter_all (fun char => negb (is_Mn char)) x).
  - rewrite (lower_kept x Hk). apply filter_all, Hk.
  - apply forallb_forall. intros c Hc.
    rewrite forallb_forall in Hk. rewrite (Mn_not_kept c (Hk c Hc)).
    reflexivity.
Qed.

End NormalizerFacts.

(** C8: for every input [x], [normalize_text x] matches [^[a-z0-9\s]*$],
    normalizing it again changes nothing, and the empty string is mapped
    to the empty string. *)
Theorem normalize_text_charset_idempotent (U : UnicodeData)
  (L : UnicodeLaws U) (x : str) :
  matches_az09s (normalize_text x) = true
  /\ normalize_text (normalize_text x) = normalize_text x
  /\ normalize_text [] = [].
Proof.
  split; [apply normalize_text_kept|]. split.
  - apply normalize_text_plain, normalize_text_output_plain.
  - apply normalize_text_plain. reflexivity.
Qed.

Lemma normalize_text_charset_idempotent_witness :
  UnicodeLaws Latin1.tables
  /\ matches_az09s
       (@normalize_text Latin1.tables (u "COMO IDENTIFICAR ALGUÉM VICIADO"))
     = true
  /\ @normalize_text Latin1.tables
       (@normalize_text Latin1.tables (u "COMO IDENTIFICAR ALGUÉM VICIADO"))
     = @normalize_text Latin1.tables (u "COMO IDENTIFICAR ALGUÉM VICIADO")
  /\ @normalize_text Latin1.tables [] = [].
Proof.
  split; [exact Latin1Facts.laws|].
  exact (normalize_text_charset_idempotent Latin1.tables Latin1Facts.laws
           (u "COMO IDENTIFICAR ALGUÉM VICIADO")).
Defined.

Example normalize_text_identificar :
  @normalize_text Latin1.tables (u "COMO IDENTIFICAR ALGUÉM VICIADO")
  = u "como identificar alguem viciado".
Proof. reflexivity. Qed.

(** C9, as the specification has it, fails: two spaces in a row stay two
    spaces in a row. *)
Lemma normalize_text_double_space :
  @normalize_text Latin1.tables (u "a  b") = u "a  b"
  /\ no_double_space (@normalize_text Latin1.tables (u "a  b")) = false.
Proof. split; reflexivity. Qed.

(** C9, amended: [normalize_text] does not collapse whitespace. The last
    substitution removes no whitespace character, so the whitespace of the
    output is that of the decomposed, lowercased text; and a text of
    lowercase ASCII letters, digits and whitespace (the two quad spaces
    apart, which NFD replaces) comes back unchanged, runs of whitespace
    included. *)
Theorem normalize_text_keeps_whitespace (U : UnicodeData)
  (L : UnicodeLaws U) (x : str) :
  List.filter is_space (normalize_text x)
  = List.filter is_space
      (lower (List.filter (fun char => negb (is_Mn char)) (nfd x)))
  /\ (forallb plain x = true -> normalize_text x = x).
Proof.
  split.
  - unfold normalize_text. apply filter_filter_implied, space_is_kept.
  - apply normalize_text_plain.
Qed.

Lemma normalize_text_keeps_whitespace_witness :
  UnicodeLaws Latin1.tables
  /\ forallb plain (u "a  b") = true
  /\ @normalize_text Latin1.tables (u "a  b") = u "a  b".
Proof.
  split; [exact Latin1Facts.laws|]. split; [reflexivity|].
  exact (proj2 (normalize_text_keeps_whitespace Latin1.tables
                  Latin1Facts.laws (u "a  b")) eq_refl).
Defined.

(** ** Strings: containment and counting *)

Lemma startswith_app p s :
  startswith p s = true -> exists b, s = p ++ b.
Proof.
  revert s. induction p as [|a p IH]; intros s; simpl.
  - intros _. exists s. reflexivity.
  - destruct s as [|c s]; [discriminate|].
    intros H. apply andb_true_iff in H as [Hac Hp].
    apply Z.eqb_eq in Hac as ->. destruct (IH s Hp) as [b ->].
    exists b. reflexivity.
Qed.

Lemma substr_app k s :
  substr k s = true -> exists a b, s = a ++ k ++ b.
Proof.
  induction s as [|c s IH]; simpl.
  - rewrite orb_false_r. intros H. apply startswith_app in H as [b Hb].
    exists [], b. exact Hb.
  - intros H. apply orb_true_iff in H as [H|H].
    + apply startswith_app in H as [b Hb]. exists [], b. exact Hb.
    + destruct (IH H) as (a & b & ->). exists (c :: a), b. reflexivity.
Qed.

Lemma count_app p a b : count p (a ++ b) = (count p a + count p b)%nat.
Proof. unfold count. rewrite List.filter_app, length_app. reflexivity. Qed.

Lemma count_cons p c s :
  count p (c :: s) = ((if p c then 1 else 0) + count p s)%nat.
Proof. unfold count. simpl. destruct (p c); reflexivity. Qed.

Lemma count_le_length p s : (count p s <= length s)%nat.
Proof. unfold count. apply List.filter_length_le. Qed.

Lemma count_all p s : forallb p s = true -> count p s = length s.
Proof. intros H. unfold count. rewrite (filter_all p s H). reflexivity. Qed.

Lemma count_rev p s : count p (rev s) = count p s.
Proof.
  induction s as [|c s IH]; [reflexivity|].
  simpl rev. rewrite count_app, IH, !count_cons. unfold count. simpl. lia.
Qed.

Lemma substr_count p k s :
  substr k s = true -> (count p k <= count p s)%nat.
Proof.
  intros H. apply substr_app in H as (a & b & ->).
  rewrite !count_app. lia.
Qed.

Lemma count_lstrip s : count nonspace (lstrip s) = count nonspace s.
Proof.
  induction s as [|c s IH]; [reflexivity|]. simpl.
  destruct (is_space c) eqn:E; [|reflexivity].
  rewrite IH, count_cons. unfold nonspace at 2. rewrite E. reflexivity.
Qed.

Lemma count_strip s : count nonspace (strip s) = count nonspace s.
Proof.
  unfold strip, rstrip.
  rewrite count_rev, count_lstrip, count_rev, count_lstrip. reflexivity.
Qed.

(** ** [clean_text] adds no character other than whitespace *)

Module CleanFacts.
Import SentimentAnalyzer.

Lemma sub_url_count p skip s : (count p (sub_url skip s) <= count p s)%nat.
Proof.
  revert skip. induction s as [|c s IH]; intros skip; simpl; [lia|].
  rewrite count_cons. destruct skip as [|k].
  - destruct (url_match (c :: s)) as [n|].
    + specialize (IH (n - 1)%nat). lia.
    + rewrite count_cons. specialize (IH O). lia.
  - specialize (IH k). lia.
Qed.

Section Runs.
Variables (p q : Z -> bool) (n : nat) (repl : str).

(** Either the replacement has no [q]-character, or the runs are made of
    [q]-characters and the replacement has at most [n] of them. *)
Hypothesis repl_small :
  count q repl = O
  \/ ((forall c, p c = true -> q c = true) /\ (count q repl <= n)%nat).

Lemma flush_count run :
  forallb p run = true ->
  (count q (flush n repl run) <= count q run)%nat.
Proof.
  intros Hrun. unfold flush.
  destruct (n <=? length run)%nat eqn:E; [|lia].
  apply Nat.leb_le in E.
  destruct repl_small as [H0|[Hpq Hn]]; [lia|].
  rewrite (count_all q run); [lia|].
  rewrite forallb_forall in *. auto.
Qed.

Lemma sub_runs_count run s :
  forallb p run = true ->
  (count q (sub_runs p n repl run s) <= count q run + count q s)%nat.
Proof.
  revert run. induction s as [|c s IH]; intros run Hrun; simpl.
  - pose proof (flush_count run Hrun). unfold count at 3. simpl. lia.
  - destruct (p c) eqn:Epc.
    + assert (forallb p (run ++ [c]) = true) as Hrun'.
      { rewrite forallb_app, Hrun. simpl. rewrite Epc. reflexivity. }
      specialize (IH _ Hrun'). rewrite count_app in IH.
      rewrite (count_cons q c s). rewrite (count_cons q c []) in IH.
      unfold count at 3 in IH. simpl in IH. lia.
    + rewrite count_app, !count_cons.
      pose proof (flush_count run Hrun). specialize (IH [] eq_refl).
      unfold count at 2 in IH. simpl in IH. lia.
Qed.

End Runs.

Lemma clean_text_count text :
  (count nonspace (clean_text text) <= count nonspace text)%nat.
Proof.
  unfold clean_text. rewrite count_strip.
  etransitivity.
  { apply (sub_runs_count is_space nonspace 1 (u " ")); [|reflexivity].
    left. reflexivity. }
  etransitivity.
  { apply Nat.add_le_mono_l.
    apply (sub_runs_count (Z.eqb 46) nonspace 3 (u "...")); [|reflexivity].
    right. split; [|vm_compute; lia].
    intros c Hc. apply Z.eqb_eq in Hc as <-. reflexivity. }
  etransitivity.
  { apply Nat.add_le_mono_l, Nat.add_le_mono_l.
    apply (sub_runs_count (Z.eqb 63) nonspace 2 (u "?")); [|reflexivity].
    right. split; [|vm_compute; lia].
    intros c Hc. apply Z.eqb_eq in Hc as <-. reflexivity. }
  etransitivity.
  { do 3 apply Nat.add_le_mono_l.
    apply (sub_runs_count (Z.eqb 33) nonspace 2 (u "!")); [|reflexivity].
    right. split; [|vm_compute; lia].
    intros c Hc. apply Z.eqb_eq in Hc as <-. reflexivity. }
  pose proof (sub_url_count nonspace 0 text).
  change (count nonspace []) with O. lia.
Qed.

End CleanFacts.

(** ** The sentiment analyzer *)

Lemma at_least_two {A} (l : list A) (a b : A) :
  In a l -> In b l -> a <> b -> (2 <= length l)%nat.
Proof.
  destruct l as [|x [|y l]]; simpl; try lia.
  intros [<-|[]] [<-|[]] Hab. congruence.
Qed.

Lemma exactly_one {A} (l : list A) (a : A) :
  NoDup l -> In a l -> (forall b, In b l -> b = a) -> length l = 1%nat.
Proof.
  destruct l as [|x [|y l]]; simpl; try reflexivity.
  - intros _ [].
  - intros Hnd _ Hall. exfalso.
    assert (x = a) as -> by (apply Hall; auto).
    assert (y = a) as -> by (apply Hall; auto).
    apply NoDup_cons in Hnd as [Hnotin _]. apply Hnotin. left.
Qed.

Lemma NoDup_list_filter {A} (f : A -> bool) (l : list A) :
  NoDup l -> NoDup (List.filter f l).
Proof.
  induction 1 as [|x l Hx Hl IH]; simpl; [constructor|].
  destruct (f x); [|exact IH]. constructor; [|exact IH].
  rewrite list_elem_of_In, filter_In, <- list_elem_of_In. tauto.
Qed.

Lemma str_eqb_eq a b : str_eqb a b = true <-> a = b.
Proof. unfold str_eqb. apply bool_decide_eq_true. Qed.

Lemma str_eqb_refl a : str_eqb a a = true.
Proof. apply str_eqb_eq. reflexivity. Qed.

Module SentimentFacts.
Import SentimentAnalyzer.

Lemma emergency_keywords_NoDup : NoDup emergency_keywords.
Proof. apply (bool_decide_unpack _). vm_compute. exact I. Qed.

(** Every keyword of the three lists has three characters or more that
    are neither whitespace nor a combining dot. *)
Lemma keywords_solid k :
  In k (emergency_keywords ++ positive_keywords ++ negative_keywords) ->
  (3 <= count solid k)%nat.
Proof.
  assert (forallb (fun k => 3 <=? count solid k)%nat
            (emergency_keywords ++ positive_keywords ++ negative_keywords)
          = true) as H by (vm_compute; reflexivity).
  rewrite forallb_forall in H. intros Hk. apply Nat.leb_le, H, Hk.
Qed.

Lemma solid_nonspace c : solid c = true -> nonspace c = true.
Proof. unfold solid, nonspace. intros H. apply andb_true_iff in H. tauto. Qed.

Lemma count_solid_nonspace s : (count solid s <= count nonspace s)%nat.
Proof.
  induction s as [|c s IH]; [reflexivity|]. rewrite !count_cons.
  destruct (solid c) eqn:E; [rewrite (solid_nonspace c E)|]; lia.
Qed.

Section Facts.
Context {U : UnicodeData} {L : UnicodeLaws U} {N : Nlp}.

Lemma too_short_length text :
  too_short text = true -> (length (strip text) < 3)%nat.
Proof.
  unfold too_short. intros H. apply orb_true_iff in H as [H|H].
  - apply str_eqb_eq in H as ->. simpl. lia.
  - apply Nat.ltb_lt, H.
Qed.

(** A keyword cannot occur in the cleaned text of a short message. *)
Lemma too_short_no_keyword text k :
  too_short text = true ->
  In k (emergency_keywords ++ positive_keywords ++ negative_keywords) ->
  substr k (lower (clean_text text)) = false.
Proof.
  intros Hshort Hk. apply too_short_length in Hshort.
  apply keywords_solid in Hk.
  destruct (substr k (lower (clean_text text))) eqn:E; [|reflexivity].
  exfalso.
  pose proof (substr_count solid _ _ E).
  pose proof (lower_solid (clean_text text)).
  pose proof (CleanFacts.clean_text_count text).
  pose proof (count_strip text).
  pose proof (count_le_length nonspace (strip text)).
  lia.
Qed.

Lemma too_short_no_emergency text :
  too_short text = true ->
  List.filter (fun keyword => substr keyword (lower (clean_text text)))
              emergency_keywords = [].
Proof.
  intros Hshort.
  destruct (List.filter _ emergency_keywords) as [|k l] eqn:E; [reflexivity|].
  assert (In k (List.filter
                  (fun keyword => substr keyword (lower (clean_text text)))
                  emergency_keywords)) as Hk by (rewrite E; left; reflexivity).
  apply filter_In in Hk as [Hin Hsub].
  rewrite (too_short_no_keyword text k Hshort) in Hsub; [discriminate|].
  apply in_or_app. left. exact Hin.
Qed.

End Facts.

End SentimentFacts.

(** *** Reading the dictionary *)

Module DictFacts.
Import SentimentAnalyzer.

Section Lookups.
Variables (s : str) (p sb c : Q) (l e : str) (k : list (str * str)).

Lemma get_sentiment :
  sentiment_dict s p sb c l e k !! "sentiment" = Some (PyStr s).
Proof. reflexivity. Qed.

Lemma get_polarity :
  sentiment_dict s p sb c l e k !! "polarity" = Some (PyFloat p).
Proof. reflexivity. Qed.

Lemma get_confidence :
  sentiment_dict s p sb c l e k !! "confidence" = Some (PyFloat c).
Proof. reflexivity. Qed.

Lemma get_emergency_level :
  sentiment_dict s p sb c l e k !! "emergency_level" = Some (PyStr e).
Proof. reflexivity. Qed.

Lemma get_keywords_found :
  sentiment_dict s p sb c l e k !! "keywords_found" = Some (PyPairs k).
Proof. reflexivity. Qed.

(** The key the urgency pass asks for is not one of the seven. *)
Lemma get_emergency_keywords :
  sentiment_dict s p sb c l e k !! "emergency_keywords" = None.
Proof. reflexivity. Qed.

Lemma not_empty : sentiment_dict s p sb c l e k <> ∅.
Proof.
  intros H. pose proof get_sentiment as Hs. rewrite H in Hs.
  rewrite lookup_empty in Hs. discriminate.
Qed.

End Lookups.

End DictFacts.

(** *** Rounding keeps a floor *)

Lemma round_half_even_floor x : Qfloor x <= round_half_even x.
Proof.
  unfold round_half_even.
  destruct (Qcompare _ _); [destruct (Z.even _)|..]; lia.
Qed.

Lemma round3_ge (m : Z) (x : Q) :
  (inject_Z m <= x * inject_Z 1000)%Q ->
  (inject_Z m / inject_Z 1000 <= round3 x)%Q.
Proof.
  intros H. unfold round3.
  apply Qmult_le_compat_r; [|discriminate].
  rewrite <- Zle_Qle.
  etransitivity; [|apply round_half_even_floor].
  rewrite <- (Qfloor_Z m). apply Qfloor_resp_le, H.
Qed.

Lemma round3_floor_8 (x : Q) : (8 # 10 <= x)%Q -> (8 # 10 <= round3 x)%Q.
Proof.
  intros H.
  assert (8 # 10 == inject_Z 800 / inject_Z 1000)%Q as -> by reflexivity.
  apply round3_ge.
  assert (inject_Z 800 == (8 # 10) * inject_Z 1000)%Q as -> by reflexivity.
  apply Qmult_le_compat_r; [exact H|discriminate].
Qed.

Module AnalyzerFacts.
Import SentimentAnalyzer SentimentFacts.

Section Facts.
Context {U : UnicodeData} {L : UnicodeLaws U} {N : Nlp}.

Lemma analyze_sentiment_level text :
  analyze_sentiment text !! "emergency_level"
  = Some (PyStr (_check_emergency_level (lower (clean_text text)))).
Proof.
  unfold analyze_sentiment. destruct (too_short text) eqn:E.
  - rewrite DictFacts.get_emergency_level. unfold _check_emergency_level.
    rewrite (too_short_no_emergency text E). reflexivity.
  - lazy zeta.
    match goal with
    | |- context [let '(_, _) := ?e in _] => destruct e as [s c]
    end.
    apply DictFacts.get_emergency_level.
Qed.

Lemma analyze_sentiment_high text :
  _check_emergency_level (lower (clean_text text)) = u "high" ->
  too_short text = false ->
  analyze_sentiment text !! "sentiment" = Some (PyStr (u "emergency"))
  /\ exists c, analyze_sentiment text !! "confidence" = Some (PyFloat c)
               /\ (8 # 10 <= c)%Q.
Proof.
  intros Hhigh Hlong. unfold analyze_sentiment. rewrite Hlong. lazy zeta.
  rewrite Hhigh, str_eqb_refl. lazy beta iota.
  split; [apply DictFacts.get_sentiment|].
  eexists. split; [apply DictFacts.get_confidence|].
  apply round3_floor_8, Q.le_max_r.
Qed.

Lemma polarity_sentiment_not_emergency (polarity : Q) :
  negb (str_eqb (if qlt (1 # 10) polarity then u "positive"
                 else if qlt polarity (- (1 # 10)) then u "negative"
                 else u "neutral") (u "emergency")) = true.
Proof.
  destruct (qlt (1 # 10) polarity); [reflexivity|].
  destruct (qlt polarity (- (1 # 10))); reflexivity.
Qed.

Lemma analyze_sentiment_positive text :
  str_eqb (_check_emergency_level (lower (clean_text text))) (u "high")
  = false ->
  too_short text = false ->
  existsb (fun keyword => substr keyword (lower (clean_text text)))
          positive_keywords = true ->
  analyze_sentiment text !! "sentiment" = Some (PyStr (u "positive")).
Proof.
  intros Hlevel Hlong Hpos. unfold analyze_sentiment. rewrite Hlong.
  lazy zeta. rewrite Hlevel, Hpos, polarity_sentiment_not_emergency.
  lazy beta iota. apply DictFacts.get_sentiment.
Qed.

End Facts.
End AnalyzerFacts.

Section EmergencyLevel.
Import SentimentAnalyzer.
Variable t : str.

Lemma check_level_high :
  (2 <= length (List.filter (fun keyword => substr keyword t)
                            emergency_keywords))%nat ->
  _check_emergency_level t = u "high".
Proof.
  intros H. unfold _check_emergency_level.
  apply Nat.leb_le in H. rewrite H. reflexivity.
Qed.

Lemma check_level_medium :
  length (List.filter (fun keyword => substr keyword t)
                      emergency_keywords) = 1%nat ->
  _check_emergency_level t = u "medium".
Proof. intros H. unfold _check_emergency_level. rewrite H. reflexivity. Qed.

Lemma check_level_low :
  List.filter (fun keyword => substr keyword t) emergency_keywords = [] ->
  _check_emergency_level t = u "low".
Proof. intros H. unfold _check_emergency_level. rewrite H. reflexivity. Qed.

End EmergencyLevel.

(** C4: when two distinct emergency keywords or more occur in the
    lowercased cleaned text, [analyze_sentiment] answers emergency level
    ['high'], sentiment ['emergency'] and a confidence of 0.8 or more;
    when exactly one occurs the level is ['medium'], and when none occurs
    it is ['low']. *)
Theorem analyze_sentiment_emergency_level (U : UnicodeData)
  (L : UnicodeLaws U) (N : Nlp) (text : str) :
  let cleaned := lower (SentimentAnalyzer.clean_text text) in
  let occurs keyword :=
    In keyword SentimentAnalyzer.emergency_keywords
    /\ substr keyword cleaned = true in
  let result := SentimentAnalyzer.analyze_sentiment text in
  ((exists k1 k2, k1 <> k2 /\ occurs k1 /\ occurs k2) ->
     result !! "emergency_level" = Some (PyStr (u "high"))
     /\ result !! "sentiment" = Some (PyStr (u "emergency"))
     /\ exists c, result !! "confidence" = Some (PyFloat c)
                  /\ (8 # 10 <= c)%Q)
  /\ ((exists k, occurs k /\ forall k', occurs k' -> k' = k) ->
        result !! "emergency_level" = Some (PyStr (u "medium")))
  /\ ((forall k, ~ occurs k) ->
        result !! "emergency_level" = Some (PyStr (u "low"))).
Proof.
  intros cleaned occurs result. subst result.
  rewrite AnalyzerFacts.analyze_sentiment_level. fold cleaned.
  assert (forall k, occurs k <->
            In k (List.filter (fun keyword => substr keyword cleaned)
                              SentimentAnalyzer.emergency_keywords)) as Hocc.
  { intros k. unfold occurs. rewrite filter_In. reflexivity. }
  split; [|split].
  - intros (k1 & k2 & Hne & H1 & H2).
    apply Hocc in H1, H2.
    pose proof (check_level_high cleaned (at_least_two _ _ _ H1 H2 Hne))
      as Hhigh.
    rewrite Hhigh. split; [reflexivity|].
    apply AnalyzerFacts.analyze_sentiment_high; [exact Hhigh|].
    destruct (SentimentAnalyzer.too_short text) eqn:E; [|reflexivity].
    exfalso. unfold cleaned in H1.
    rewrite (SentimentFacts.too_short_no_emergency text E) in H1.
    destruct H1.
  - intros (k & Hk & Honly). apply Hocc in Hk.
    rewrite (check_level_medium cleaned); [reflexivity|].
    apply (exactly_one _ k); [|exact Hk|].
    + apply NoDup_list_filter, SentimentFacts.emergency_keywords_NoDup.
    + intros b Hb. apply Honly, Hocc, Hb.
  - intros Hnone. rewrite (check_level_low cleaned); [reflexivity|].
    destruct (List.filter _ SentimentAnalyzer.emergency_keywords)
      as [|k l] eqn:E; [reflexivity|].
    exfalso. apply (Hnone k), Hocc. left. reflexivity.
Qed.

(** Decides a membership hypothesis [Hin : In k [k1; ...; kn]] against a
    fact [Hsub] that computes for each candidate. *)
Ltac each_keyword Hin Hsub :=
  repeat (destruct Hin as [<-|Hin];
          [first [reflexivity | vm_compute in Hsub; discriminate]|]);
  destruct Hin.

Lemma analyze_sentiment_emergency_level_witness :
  let N := constant_nlp 0 0 in
  let analyze := @SentimentAnalyzer.analyze_sentiment Latin1.tables N in
  UnicodeLaws Latin1.tables
  /\ (analyze (u "estou em crise, é uma emergência") !! "emergency_level"
      = Some (PyStr (u "high"))
      /\ analyze (u "estou em crise, é uma emergência") !! "sentiment"
         = Some (PyStr (u "emergency"))
      /\ exists c,
           analyze (u "estou em crise, é uma emergência") !! "confidence"
           = Some (PyFloat c) /\ (8 # 10 <= c)%Q)
  /\ analyze (u "preciso disso agora") !! "emergency_level"
     = Some (PyStr (u "medium"))
  /\ analyze (u "bom dia para todos") !! "emergency_level"
     = Some (PyStr (u "low")).
Proof.
  intros N analyze. split; [exact Latin1Facts.laws|]. split; [|split].
  - apply (proj1 (analyze_sentiment_emergency_level Latin1.tables
                    Latin1Facts.laws N
                    (u "estou em crise, é uma emergência"))).
    exists (u "crise"), (u "emergência").
    split; [discriminate|]. split; (split; [vm_compute; tauto|reflexivity]).
  - apply (proj1 (proj2 (analyze_sentiment_emergency_level Latin1.tables
                           Latin1Facts.laws N (u "preciso disso agora")))).
    exists (u "agora"). split; [split; [vm_compute; tauto|reflexivity]|].
    intros k' [Hin Hsub]. unfold SentimentAnalyzer.emergency_keywords in Hin.
    each_keyword Hin Hsub.
  - apply (proj2 (proj2 (analyze_sentiment_emergency_level Latin1.tables
                           Latin1Facts.laws N (u "bom dia para todos")))).
    intros k [Hin Hsub]. unfold SentimentAnalyzer.emergency_keywords in Hin.
    each_keyword Hin Hsub.
Defined.

Lemma existsb_In {A} (f : A -> bool) (l : list A) (a : A) :
  In a l -> f a = true -> existsb f l = true.
Proof. intros Hin Hf. apply existsb_exists. exists a. auto. Qed.

(** C10: when the emergency level is not ['high'] and the lowercased
    cleaned text holds a positive keyword and a negative keyword,
    [analyze_sentiment] answers sentiment ['positive']: the positive list
    is tested first. *)
Theorem positive_keyword_wins (U : UnicodeData) (L : UnicodeLaws U)
  (N : Nlp) (text : str) :
  let cleaned := lower (SentimentAnalyzer.clean_text text) in
  let result := SentimentAnalyzer.analyze_sentiment text in
  result !! "emergency_level" <> Some (PyStr (u "high")) ->
  (exists k, In k SentimentAnalyzer.positive_keywords
             /\ substr k cleaned = true) ->
  (exists k, In k SentimentAnalyzer.negative_keywords
             /\ substr k cleaned = true) ->
  result !! "sentiment" = Some (PyStr (u "positive")).
Proof.
  intros cleaned result Hlevel (k & Hin & Hsub) _. subst result cleaned.
  rewrite AnalyzerFacts.analyze_sentiment_level in Hlevel.
  apply AnalyzerFacts.analyze_sentiment_positive.
  - destruct (str_eqb _ (u "high")) eqn:E; [|reflexivity].
    apply str_eqb_eq in E. rewrite E in Hlevel. congruence.
  - destruct (SentimentAnalyzer.too_short text) eqn:E; [|reflexivity].
    rewrite (SentimentFacts.too_short_no_keyword text k E) in Hsub;
      [discriminate|].
    apply in_or_app. right. apply in_or_app. left. exact Hin.
  - exact (existsb_In _ _ k Hin Hsub).
Qed.

Lemma positive_keyword_wins_witness :
  let N := constant_nlp (- (3 # 10)) (5 # 10) in
  let text := u "Obrigado pela ajuda, mas estou triste!!" in
  UnicodeLaws Latin1.tables
  /\ @SentimentAnalyzer.analyze_sentiment Latin1.tables N text
     !! "emergency_level" = Some (PyStr (u "low"))
  /\ @SentimentAnalyzer.analyze_sentiment Latin1.tables N text
     !! "sentiment" = Some (PyStr (u "positive")).
Proof.
  intros N text. split; [exact Latin1Facts.laws|]. split; [reflexivity|].
  apply (positive_keyword_wins Latin1.tables Latin1Facts.laws N text).
  - intros H. vm_compute in H. discriminate.
  - exists (u "obrigado"). split; [vm_compute; tauto|reflexivity].
  - exists (u "triste"). split; [vm_compute; tauto|reflexivity].
Defined.

(** ** The urgency pass *)

Module UrgencyFacts.
Import ClinicaChatbot.

Section Facts.
Context {U : UnicodeData} {N : Nlp}.

(** Whatever the text, the answer of the analyzer is one of its seven-key
    dictionaries. *)
Lemma analyze_sentiment_dict (text : str) :
  exists s p sb c l e k,
    SentimentAnalyzer.analyze_sentiment text
    = SentimentAnalyzer.sentiment_dict s p sb c l e k.
Proof.
  unfold SentimentAnalyzer.analyze_sentiment.
  destruct (SentimentAnalyzer.too_short text); [repeat eexists|].
  lazy zeta.
  match goal with
  | |- context [let '(_, _) := ?e in _] => destruct e as [s c]
  end.
  repeat eexists.
Qed.

(** On the answer of the analyzer the first sentiment test never fires:
    the urgency is ['alta'] exactly when the keyword pass said so. *)
Lemma urgency_alta_only_by_keyword (text : str) (sid : option str) :
  exists l,
    detect_urgency_and_create_ticket
      text sid (Some (SentimentAnalyzer.analyze_sentiment text)) = Some l
    /\ (urgency l = u "alta" <->
        existsb (fun keyword => substr keyword (lower text))
                high_priority_keywords = true).
Proof.
  destruct (analyze_sentiment_dict text) as (s & p & sb & c & l & e & k & ->).
  unfold detect_urgency_and_create_ticket.
  rewrite bool_decide_eq_false_2 by apply DictFacts.not_empty.
  unfold get_float, truthy_get.
  rewrite DictFacts.get_polarity, DictFacts.get_emergency_keywords.
  rewrite andb_false_r.
  destruct (existsb _ high_priority_keywords).
  - destruct (qlt p _); eexists; (split; [reflexivity|]); simpl; tauto.
  - destruct (existsb _ medium_priority_keywords), (qlt p _);
      eexists; (split; [reflexivity|]); simpl; split; discriminate.
Qed.

End Facts.
End UrgencyFacts.

(** C1 at a message that the analyzer scores below -0.5 and in which it
    finds the emergency keyword "agora": the dictionary has no key
    ['emergency_keywords'], the branch that forces ['alta'] is skipped and
    the urgency sent to the CRM is ['média']. *)
Theorem urgency_of_negative_emergency_message :
  let N := constant_nlp (- (8 # 10)) (9 # 10) in
  let message := u "I hate this agora" in
  let result := @SentimentAnalyzer.analyze_sentiment Latin1.tables N message in
  (exists p, result !! "polarity" = Some (PyFloat p) /\ (p < - (5 # 10))%Q)
  /\ result !! "keywords_found"
     = Some (PyPairs [(u "emergency", u "agora")])
  /\ result !! "emergency_keywords" = None
  /\ ClinicaChatbot.urgency
       <$> @ClinicaChatbot.detect_urgency_and_create_ticket
             Latin1.tables message None (Some result)
     = Some (u "média").
Proof.
  intros N message result. split; [|split; [|split]].
  - eexists. split; [vm_compute; reflexivity|]. reflexivity.
  - reflexivity.
  - reflexivity.
  - vm_compute. reflexivity.
Qed.

(** ** The provider chain *)

Lemma falsy_Some r : falsy (Some r) = false <-> r <> [].
Proof.
  unfold falsy, str_eqb. rewrite bool_decide_eq_false. reflexivity.
Qed.

Module ChainFacts.
Import ClinicaChatbot.

Section Facts.
Variable W : World.
Variables (self : t) (msg : str).

Lemma openai_success x :
  get_response_openai W self msg = Some x ->
  exists messages, chat_completions_create W messages = Returned (Some x).
Proof.
  unfold get_response_openai.
  destruct (chat_completions_create W _) as [|text] eqn:E; [discriminate|].
  intros ->. eexists. exact E.
Qed.

Lemma huggingface_success x :
  get_response_huggingface W self msg = Some x ->
  exists headers reply g rest,
    hf_post W headers (hf_inputs msg) = Returned reply
    /\ status_code reply = 200
    /\ json reply = Some (HfList (HfDict g :: rest))
    /\ x = strip (replace (hf_inputs msg) [] (default [] g)).
Proof.
  unfold get_response_huggingface.
  destruct (hf_post W _ _) as [|reply] eqn:E; [discriminate|].
  destruct (status_code reply =? 200) eqn:Es; [|discriminate].
  apply Z.eqb_eq in Es.
  destruct (json reply) as [[[|[g|] rest]|]|] eqn:Ej; try discriminate.
  intros Hx.
  apply (f_equal (fun o => match o with Some v => v | None => [] end)) in Hx.
  lazy beta iota in Hx. subst x. eexists _, reply, g, rest.
  split; [exact E|]. split; [exact Es|]. split; [exact Ej|reflexivity].
Qed.

Lemma gemini_success x :
  get_response_gemini W self msg = Some x ->
  exists key reply rest,
    getenv W "GOOGLE_API_KEY" = Some key /\ key <> []
    /\ gemini_post W key (gemini_text self msg) = Returned reply
    /\ status_code reply = 200
    /\ json reply = Some {| candidates := Some (Some x :: rest) |}.
Proof.
  unfold get_response_gemini.
  destruct (getenv W "GOOGLE_API_KEY") as [key|] eqn:Ek; simpl;
    [|discriminate].
  destruct (str_eqb key []) eqn:Ee; [discriminate|].
  destruct (gemini_post W _ _) as [|reply] eqn:E; [discriminate|].
  destruct (status_code reply =? 200) eqn:Es; [|discriminate].
  apply Z.eqb_eq in Es.
  destruct (json reply) as [[[[|[text|] rest]|]]|] eqn:Ej; try discriminate.
  intros [= <-]. exists key, reply, rest.
  split; [reflexivity|]. split; [intros ->; discriminate|].
  split; [exact E|]. split; [exact Es|exact Ej].
Qed.

(** The chain in normal form: the first truthy answer, and the backends
    called up to it. *)
Lemma provider_chain_cases :
  let openai_on := str_eqb (AI_PROVIDER W) (u "openai") && client W in
  let before := if openai_on then [OpenAI] else [] in
  let r1 := if openai_on then get_response_openai W self msg else None in
  let r2 := get_response_huggingface W self msg in
  let r3 := get_response_gemini W self msg in
  provider_chain W self msg
  = if negb (falsy r1) then (r1, before)
    else if negb (falsy r2) then (r2, before ++ [HuggingFace])
    else (r3, before ++ [HuggingFace; Gemini]).
Proof.
  unfold provider_chain.
  destruct (str_eqb (AI_PROVIDER W) (u "openai") && client W);
    lazy beta iota zeta.
  - destruct (falsy (get_response_openai W self msg)) eqn:E1;
      lazy beta iota zeta delta [negb]; rewrite ?E1;
      lazy beta iota zeta; [|reflexivity].
    destruct (falsy (get_response_huggingface W self msg)) eqn:E2;
      lazy beta iota zeta delta [negb]; rewrite ?E2; reflexivity.
  - change (falsy None) with true. lazy beta iota zeta delta [negb].
    destruct (falsy (get_response_huggingface W self msg)) eqn:E2;
      lazy beta iota zeta delta [negb]; rewrite ?E2; reflexivity.
Qed.

Lemma provider_chain_calls : snd (provider_chain W self msg) <> [].
Proof.
  rewrite provider_chain_cases. lazy zeta.
  destruct (str_eqb (AI_PROVIDER W) (u "openai") && client W);
    lazy beta iota zeta.
  - repeat (destruct (negb _));
      lazy beta iota zeta delta [snd app]; discriminate.
  - change (falsy None) with true.
    destruct (falsy (get_response_huggingface W self msg));
      lazy beta iota zeta delta [snd app negb]; discriminate.
Qed.

End Facts.
End ChainFacts.

(** ** The response resolver *)

Module ResolverFacts.
Import ClinicaChatbot.

Lemma templates_not_empty :
  forallb (fun r => negb (str_eqb r []))
    [resposta_identificacao; resposta_internacao; resposta_convenio;
     resposta_emergencia; resposta_contato; resposta_saudacao;
     resposta_generica] = true.
Proof. vm_compute. reflexivity. Qed.


(** The treatment and dependency keywords of the fallback are among
    those [get_response] tests before it tries the providers. *)
Lemma fallback_keywords_included k :
  In k (tratamento_keywords ++ dependencia_keywords) ->
  In k (tratamento_keywords_ia ++ dependencia_keywords_ia).
Proof.
  assert (forallb
            (fun k => existsb (str_eqb k)
                        (tratamento_keywords_ia ++ dependencia_keywords_ia))
            (tratamento_keywords ++ dependencia_keywords) = true) as H
    by (vm_compute; reflexivity).
  rewrite forallb_forall in H. intros Hk. apply H in Hk.
  apply existsb_exists in Hk as (k' & Hin & Heq).
  apply str_eqb_eq in Heq as ->. exact Hin.
Qed.

Section Facts.
Context {U : UnicodeData} {N : Nlp}.
Variable W : World.

Lemma contains_keywords_incl (text : str) (l l' : list str) :
  (forall k, In k l -> In k l') ->
  contains_keywords text l = true -> contains_keywords text l' = true.
Proof.
  unfold contains_keywords. intros Hincl H.
  apply existsb_exists in H as (k & Hin & Hk).
  apply existsb_exists. exists k. auto.
Qed.

(** A canned answer is never the empty string. *)
Lemma fallback_truthy (msg r : str) :
  get_response_fallback msg = Some r -> falsy (Some r) = false.
Proof.
  unfold get_response_fallback.
  repeat match goal with
         | |- context [if ?b then _ else _] => destruct b
         end;
    intros [= <-]; vm_compute; reflexivity.
Qed.

(** The answer in the default language, and the backends called. *)
Lemma get_response_pt (self : t) (msg : str) (cid : option str) :
  let chain :=
    if contains_keywords msg
         (tratamento_keywords_ia ++ dependencia_keywords_ia)
       || negb (str_eqb (AI_PROVIDER W) (u "fallback"))
    then provider_chain W (heard self msg) msg
    else (None, []) in
  response (get_response W self msg cid (u "pt"))
  = (if falsy (fst chain) then
       if falsy (get_response_fallback msg) then Some resposta_generica
       else get_response_fallback msg
     else fst chain)
  /\ calls (get_response W self msg cid (u "pt")) = snd chain.
Proof.
  unfold get_response. lazy zeta. rewrite str_eqb_refl.
  destruct (if _ || _ then provider_chain W (heard self msg) msg
            else (None, [])) as [r c].
  lazy beta iota delta [negb response calls fst snd]. split; reflexivity.
Qed.

End Facts.
End ResolverFacts.

(** C5, as the specification has it, fails for missing credentials: with
    no [HUGGINGFACE_API_KEY] the Hugging Face attempt still posts, to the
    public endpoint, and returns the text it is given. *)
Lemma huggingface_without_key_answers :
  let W := huggingface_answers ∅ (u "X") in
  getenv W "HUGGINGFACE_API_KEY" = None
  /\ ClinicaChatbot.get_response_huggingface W new_chatbot (u "oi")
     = Some (u "X").
Proof. split; vm_compute; reflexivity. Qed.

(** C5, amended: the chain tries OpenAI (only when [AI_PROVIDER] is
    ['openai'] and the client exists), then Hugging Face, then Gemini; it
    stops at the first answer that is a non-empty string and calls no
    backend after it, so a first backend that fails and a second that
    answers "X" give "X" without a call to the third. No attempt raises,
    and an attempt answers a string only on a reply of status 200 with a
    well-formed body: an exception, another status or a malformed body
    give [None]. A missing API key gives [None] for Gemini alone; the
    Hugging Face attempt runs with or without a key. *)
Theorem provider_chain_first_success (W : World) (self : ClinicaChatbot.t)
  (msg : str) :
  let openai_on := str_eqb (AI_PROVIDER W) (u "openai") && client W in
  let before := if openai_on then [OpenAI] else [] in
  let r1 :=
    if openai_on then ClinicaChatbot.get_response_openai W self msg
    else None in
  let r2 := ClinicaChatbot.get_response_huggingface W self msg in
  let r3 := ClinicaChatbot.get_response_gemini W self msg in
  ClinicaChatbot.provider_chain W self msg
  = (if negb (falsy r1) then (r1, before)
     else if negb (falsy r2) then (r2, before ++ [HuggingFace])
     else (r3, before ++ [HuggingFace; Gemini]))
  /\ (forall x, falsy r1 = true -> r2 = Some x -> x <> [] ->
        ClinicaChatbot.provider_chain W self msg
        = (Some x, before ++ [HuggingFace]))
  /\ (forall x, ClinicaChatbot.get_response_openai W self msg = Some x ->
        exists messages,
          chat_completions_create W messages = Returned (Some x))
  /\ (forall x, r2 = Some x ->
        exists headers reply g rest,
          hf_post W headers (ClinicaChatbot.hf_inputs msg) = Returned reply
          /\ status_code reply = 200
          /\ json reply = Some (HfList (HfDict g :: rest))
          /\ x = strip (replace (ClinicaChatbot.hf_inputs msg) []
                                (default [] g)))
  /\ (forall x, r3 = Some x ->
        exists key reply rest,
          getenv W "GOOGLE_API_KEY" = Some key /\ key <> []
          /\ gemini_post W key (ClinicaChatbot.gemini_text self msg)
             = Returned reply
          /\ status_code reply = 200
          /\ json reply = Some {| candidates := Some (Some x :: rest) |}).
Proof.
  intros openai_on before r1 r2 r3.
  pose proof (ChainFacts.provider_chain_cases W self msg) as Hcases.
  lazy zeta in Hcases. fold openai_on in Hcases.
  fold before r1 r2 r3 in Hcases.
  split; [exact Hcases|]. split; [|split; [|split]].
  - intros x H1 H2 Hx. rewrite Hcases, H1.
    apply falsy_Some in Hx. rewrite H2, Hx. reflexivity.
  - apply ChainFacts.openai_success.
  - apply ChainFacts.huggingface_success.
  - apply ChainFacts.gemini_success.
Qed.

Lemma provider_chain_first_success_witness :
  let W := huggingface_answers (<["AI_PROVIDER" := u "openai"]> ∅) (u "X") in
  ClinicaChatbot.get_response_openai W new_chatbot (u "oi") = None
  /\ ClinicaChatbot.get_response_huggingface W new_chatbot (u "oi")
     = Some (u "X")
  /\ ClinicaChatbot.provider_chain W new_chatbot (u "oi")
     = (Some (u "X"), [OpenAI; HuggingFace]).
Proof.
  intros W. split; [reflexivity|]. split; [vm_compute; reflexivity|].
  apply (proj1 (proj2 (provider_chain_first_success W new_chatbot (u "oi")))
           (u "X")).
  - reflexivity.
  - vm_compute. reflexivity.
  - discriminate.
Defined.


(** C2, as the specification has it, fails in the default configuration:
    a question about the telephone, which the fallback answers with the
    contact text, is sent to OpenAI first and answered by it. *)
Lemma contact_question_goes_to_openai :
  let W := openai_answers ∅ (u "X") in
  let a :=
    @ClinicaChatbot.get_response Latin1.tables (constant_nlp 0 0) W
      new_chatbot (u "qual o telefone") None (u "pt") in
  @ClinicaChatbot.get_response_fallback Latin1.tables (u "qual o telefone")
  = Some ClinicaChatbot.resposta_contato
  /\ ClinicaChatbot.response a = Some (u "X")
  /\ ClinicaChatbot.calls a = [OpenAI].
Proof. repeat split; vm_compute; reflexivity. Qed.

(** C2, amended: when [AI_PROVIDER] is ['fallback'] and the message holds
    none of the treatment and dependency keywords [get_response] tests,
    a message the fallback answers with a canned text gets that text (in
    the default language) and no provider is called. *)
Theorem canned_answer_without_providers (U : UnicodeData) (N : Nlp)
  (W : World) (self : ClinicaChatbot.t) (msg : str) (cid : option str)
  (r : str) :
  AI_PROVIDER W = u "fallback" ->
  contains_keywords msg
    (ClinicaChatbot.tratamento_keywords_ia
     ++ ClinicaChatbot.dependencia_keywords_ia) = false ->
  ClinicaChatbot.get_response_fallback msg = Some r ->
  ClinicaChatbot.response
    (ClinicaChatbot.get_response W self msg cid (u "pt")) = Some r
  /\ ClinicaChatbot.calls
       (ClinicaChatbot.get_response W self msg cid (u "pt")) = [].
Proof.
  intros Hmode Hkw Hcanned.
  destruct (ResolverFacts.get_response_pt W self msg cid) as [-> ->].
  lazy zeta. rewrite Hkw, Hmode, str_eqb_refl.
  lazy beta iota delta [orb negb fst snd].
  change (falsy None) with true. lazy beta iota.
  rewrite Hcanned, (ResolverFacts.fallback_truthy msg r Hcanned).
  split; reflexivity.
Qed.

Lemma canned_answer_without_providers_witness :
  let W := openai_answers (<["AI_PROVIDER" := u "fallback"]> ∅) (u "X") in
  let a :=
    @ClinicaChatbot.get_response Latin1.tables (constant_nlp 0 0) W
      new_chatbot (u "qual o telefone") None (u "pt") in
  ClinicaChatbot.response a = Some ClinicaChatbot.resposta_contato
  /\ ClinicaChatbot.calls a = [].
Proof.
  intros W a.
  apply (canned_answer_without_providers Latin1.tables (constant_nlp 0 0) W
           new_chatbot (u "qual o telefone") None
           ClinicaChatbot.resposta_contato);
    vm_compute; reflexivity.
Defined.

(** C7: for a message with a treatment or dependency keyword and no
    identification keyword, the fallback returns [None], and
    [get_response] calls a provider first (OpenAI or Hugging Face); its
    answer is the text of the chain, or the generic answer when every
    provider fails. *)
Theorem treatment_question_defers_to_providers (U : UnicodeData) (N : Nlp)
  (W : World) (self : ClinicaChatbot.t) (msg : str) (cid : option str) :
  contains_keywords msg
    (ClinicaChatbot.tratamento_keywords
     ++ ClinicaChatbot.dependencia_keywords) = true ->
  contains_keywords msg ClinicaChatbot.identificacao_keywords = false ->
  let a := ClinicaChatbot.get_response W self msg cid (u "pt") in
  let chain :=
    ClinicaChatbot.provider_chain W (ClinicaChatbot.heard self msg) msg in
  ClinicaChatbot.get_response_fallback msg = None
  /\ ClinicaChatbot.calls a = snd chain
  /\ (exists p rest, ClinicaChatbot.calls a = p :: rest
                     /\ (p = OpenAI \/ p = HuggingFace))
  /\ ClinicaChatbot.response a
     = (if falsy (fst chain) then Some ClinicaChatbot.resposta_generica
        else fst chain).
Proof.
  intros Hkw Hid a chain. subst a.
  assert (ClinicaChatbot.get_response_fallback msg = None) as Hdefer.
  { unfold ClinicaChatbot.get_response_fallback. rewrite Hid, Hkw.
    reflexivity. }
  destruct (ResolverFacts.get_response_pt W self msg cid) as [-> ->].
  lazy zeta.
  rewrite (ResolverFacts.contains_keywords_incl msg _ _
             ResolverFacts.fallback_keywords_included Hkw).
  lazy beta iota delta [orb]. fold chain. rewrite Hdefer.
  change (falsy None) with true. lazy beta iota.
  split; [reflexivity|]. split; [reflexivity|]. split; [|reflexivity].
  subst chain.
  rewrite (ChainFacts.provider_chain_cases W (ClinicaChatbot.heard self msg)
             msg).
  lazy zeta.
  destruct (str_eqb (AI_PROVIDER W) (u "openai") && client W);
    lazy beta iota zeta.
  - repeat (destruct (negb _));
      lazy beta iota zeta delta [snd app]; eauto.
  - change (falsy None) with true.
    destruct (falsy (ClinicaChatbot.get_response_huggingface W _ msg));
      lazy beta iota zeta delta [snd app negb]; eauto.
Qed.

Lemma treatment_question_defers_to_providers_witness :
  let msg := u "quero saber sobre tratamento" in
  let a :=
    @ClinicaChatbot.get_response Latin1.tables (constant_nlp 0 0) offline
      new_chatbot msg None (u "pt") in
  @ClinicaChatbot.get_response_fallback Latin1.tables msg = None
  /\ ClinicaChatbot.calls a = [OpenAI; HuggingFace; Gemini]
  /\ ClinicaChatbot.response a = Some ClinicaChatbot.resposta_generica.
Proof.
  intros msg a.
  destruct (treatment_question_defers_to_providers Latin1.tables
              (constant_nlp 0 0) offline new_chatbot msg None)
    as (Hdefer & Hcalls & _ & Hresponse);
    [vm_compute; reflexivity|vm_compute; reflexivity|].
  split; [exact Hdefer|]. split.
  - etransitivity; [exact Hcalls|]. vm_compute. reflexivity.
  - etransitivity; [exact Hresponse|]. vm_compute. reflexivity.
Defined.

(** ** The chat route and its tickets *)

Module RouteFacts.
Import Route.

Lemma creations_app s e1 e2 :
  creations s (e1 ++ e2) = (creations s e1 + creations s e2)%nat.
Proof. unfold creations. rewrite List.filter_app, length_app. reflexivity. Qed.

Lemma no_ticket_length db s :
  no_ticket db s
  = (length (DatabaseManager.get_tickets_by_session db (Some s)) =? 0)%nat.
Proof.
  unfold no_ticket.
  destruct (DatabaseManager.get_tickets_by_session db (Some s)); reflexivity.
Qed.

(** Saving the exchange leaves the tickets as they are. *)
Lemma save_conversation_tickets db key msg r :
  DatabaseManager.tickets
    (match DatabaseManager.save_conversation db key msg r with
     | Some db' => db'
     | None => db
     end) = DatabaseManager.tickets db.
Proof.
  unfold DatabaseManager.save_conversation.
  destruct key, r; reflexivity.
Qed.

Lemma get_tickets_same db db' key :
  DatabaseManager.tickets db' = DatabaseManager.tickets db ->
  DatabaseManager.get_tickets_by_session db' key
  = DatabaseManager.get_tickets_by_session db key.
Proof.
  intros H. unfold DatabaseManager.get_tickets_by_session. rewrite H.
  reflexivity.
Qed.

(** What [create_ticket] does to the tickets of session [s]. *)
Lemma create_ticket_session db k title description priority s :
  exists id db',
    DatabaseManager.create_ticket db (Some k) title description priority
    = Some (id, db')
    /\ length (DatabaseManager.get_tickets_by_session db' (Some s))
       = (length (DatabaseManager.get_tickets_by_session db (Some s))
          + (if str_eqb k s then 1 else 0))%nat.
Proof.
  eexists _, _. split; [reflexivity|].
  unfold DatabaseManager.get_tickets_by_session.
  cbn [DatabaseManager.tickets DatabaseManager.ticket_session_id].
  rewrite !length_rev, List.filter_app, length_app.
  cbn [List.filter DatabaseManager.ticket_session_id].
  destruct (str_eqb k s); reflexivity.
Qed.

Section Facts.
Context {U : UnicodeData} {N : Nlp}.
Variable W : World.

(** One request: a ticket for session [s] is created exactly when the
    request is from [s] and [s] has no ticket yet. *)
Lemma chat_tickets (srv : server) (req : request) (s : str) :
  let n :=
    if from_session s req && no_ticket (db srv) s then 1%nat else 0%nat in
  creations s (snd (chat W srv req)) = n
  /\ length (DatabaseManager.get_tickets_by_session
               (db (snd (fst (chat W srv req)))) (Some s))
     = (length (DatabaseManager.get_tickets_by_session (db srv) (Some s))
        + n)%nat.
Proof.
  unfold chat, from_session, creations.
  destruct (str_eqb (strip (default [] (message req))) []) eqn:Eempty.
  { cbn [negb andb fst snd db creations List.filter length]. split; lia. }
  cbn [negb andb]. lazy zeta.
  set (a := ClinicaChatbot.get_response W (chatbot srv) _ _ _).
  set (msg := strip (default [] (message req))).
  set (db1 := match DatabaseManager.save_conversation _ _ _ _ with
              | Some db' => db'
              | None => db srv
              end).
  assert (DatabaseManager.tickets db1 = DatabaseManager.tickets (db srv))
    as Hdb1 by apply save_conversation_tickets.
  pose proof (get_tickets_same (db srv) db1 (Some s) Hdb1) as Hsame.
  rewrite no_ticket_length, <- Hsame.
  destruct (session_key req) as [k|] eqn:Ekey.
  - destruct (DatabaseManager.get_tickets_by_session db1 (Some k))
      as [|tk tks] eqn:Eex.
    + match goal with
      | |- context [DatabaseManager.create_ticket db1 (Some k) ?t ?d ?p] =>
          destruct (create_ticket_session db1 k t d p s)
            as (id & db' & -> & Hlen)
      end.
      cbn [fst snd db creations List.filter is_creation].
      rewrite Hlen.
      destruct (str_eqb k s) eqn:Eks.
      * apply str_eqb_eq in Eks as ->.
        rewrite bool_decide_eq_true_2 by reflexivity.
        rewrite Eex. cbn [List.filter length Nat.eqb andb].
        split; reflexivity.
      * rewrite bool_decide_eq_false_2.
        { cbn [List.filter length andb]. split; lia. }
        intros [= ->]. rewrite str_eqb_refl in Eks. discriminate.
    + cbn [fst snd db creations List.filter length].
      destruct (bool_decide (Some k = Some s)) eqn:Eks;
        [|cbn [andb]; split; lia].
      apply bool_decide_eq_true in Eks as [= ->].
      rewrite Eex. cbn [length Nat.eqb andb]. split; lia.
  - cbn [DatabaseManager.get_tickets_by_session
           DatabaseManager.create_ticket fst snd db creations List.filter
           is_creation length].
    rewrite bool_decide_eq_false_2 by discriminate.
    cbn [andb]. split; lia.
Qed.

Lemma serve_cons (srv : server) (req : request) (reqs : list request) :
  serve W srv (req :: reqs)
  = (fst (serve W (snd (fst (chat W srv req))) reqs),
     snd (chat W srv req)
     ++ snd (serve W (snd (fst (chat W srv req))) reqs)).
Proof.
  cbn [serve]. destruct (chat W srv req) as [[rp srv'] ev].
  cbn [fst snd]. destruct (serve W srv' reqs). reflexivity.
Qed.

(** A run: one creation for a session that starts without a ticket and
    sends a message, none otherwise. *)
Lemma serve_tickets (reqs : list request) (srv : server) (s : str) :
  let n :=
    if no_ticket (db srv) s && existsb (from_session s) reqs
    then 1%nat else 0%nat in
  creations s (snd (serve W srv reqs)) = n
  /\ length (DatabaseManager.get_tickets_by_session
               (db (fst (serve W srv reqs))) (Some s))
     = (length (DatabaseManager.get_tickets_by_session (db srv) (Some s))
        + n)%nat.
Proof.
  revert srv. induction reqs as [|req reqs IH]; intros srv.
  - cbn [serve existsb fst snd creations List.filter length].
    rewrite andb_false_r. split; lia.
  - rewrite serve_cons. cbn [fst snd existsb]. rewrite creations_app.
    destruct (chat_tickets srv req s) as [Hc Hl].
    destruct (IH (snd (fst (chat W srv req)))) as [IHc IHl].
    lazy zeta in Hc, Hl, IHc, IHl. lazy zeta.
    rewrite Hc, IHc, IHl, Hl. clear Hc IHc IHl.
    rewrite !no_ticket_length in *. rewrite Hl. clear Hl.
    destruct (from_session s req);
      destruct (length (DatabaseManager.get_tickets_by_session
                          (db srv) (Some s))) as [|m];
      cbn [andb orb Nat.eqb Nat.add]; split; lia.
Qed.

End Facts.
End RouteFacts.

(** C6: the route calls [create_ticket] for a session on a message of
    that session exactly when the session has no ticket yet; hence over
    any run of requests a session that starts without a ticket gets one
    creation call, at its first message, however many messages follow,
    and a session never gets more than one. *)
Theorem one_automatic_ticket_per_session (U : UnicodeData) (N : Nlp)
  (W : World) (srv : Route.server) (reqs : list Route.request) (s : str) :
  let tickets_of db :=
    DatabaseManager.get_tickets_by_session db (Some s) in
  let run := Route.serve W srv reqs in
  (forall req, Route.from_session s req = true ->
     (Route.creations s (snd (Route.chat W srv req)) = 1%nat
      <-> tickets_of (Route.db srv) = []))
  /\ Route.creations s (snd run)
     = (if Route.no_ticket (Route.db srv) s
           && existsb (Route.from_session s) reqs
        then 1%nat else 0%nat)
  /\ (Route.creations s (snd run) <= 1)%nat
  /\ length (tickets_of (Route.db (fst run)))
     = (length (tickets_of (Route.db srv)) + Route.creations s (snd run))%nat.
Proof.
  intros tickets_of run. subst tickets_of run. cbv beta.
  destruct (RouteFacts.serve_tickets W reqs srv s) as [Hc Hl].
  lazy zeta in Hc, Hl. split; [|split; [|split]].
  - intros req Hreq.
    destruct (RouteFacts.chat_tickets W srv req s) as [Hc1 _].
    lazy zeta in Hc1. rewrite Hc1, Hreq. cbn [andb].
    unfold Route.no_ticket.
    destruct (DatabaseManager.get_tickets_by_session (Route.db srv)
                (Some s));
      lazy beta iota; split; intros H; first [reflexivity|discriminate H].
  - exact Hc.
  - rewrite Hc. destruct (_ && _); lia.
  - rewrite Hl, Hc. reflexivity.
Qed.

Lemma one_automatic_ticket_per_session_witness :
  let srv :=
    {| Route.chatbot := new_chatbot; Route.db := empty_db |} in
  let req text :=
    {| Route.message := Some (u text); Route.session_id := Some (u "s1");
       Route.conversation_id := None |} in
  let first := req "socorro, não aguento mais, quero morrer" in
  let run :=
    @Route.serve Latin1.tables (constant_nlp 0 0) offline srv
      [first; req "oi"; req "qual o telefone"] in
  Route.from_session (u "s1") first = true
  /\ Route.creations (u "s1")
       (snd (@Route.chat Latin1.tables (constant_nlp 0 0) offline srv first))
     = 1%nat
  /\ Route.creations (u "s1") (snd run) = 1%nat
  /\ map DatabaseManager.ticket_priority
         (DatabaseManager.tickets (Route.db (fst run))) = [u "alta"].
Proof.
  intros srv req first run. split; [reflexivity|]. split; [|split].
  - apply (proj1 (one_automatic_ticket_per_session Latin1.tables
                    (constant_nlp 0 0) offline srv [] (u "s1")) first);
      reflexivity.
  - vm_compute. reflexivity.
  - vm_compute. reflexivity.
Defined.

(** * Further properties *)

(** ** [clean_text]: the shape of its output *)

Module StripFacts.

Lemma lstrip_suffix s : exists pre, s = pre ++ lstrip s.
Proof.
  induction s as [|c s [pre IH]]; [exists []; reflexivity|]. simpl.
  destruct (is_space c).
  - exists (c :: pre). simpl. f_equal. exact IH.
  - exists []. reflexivity.
Qed.

Lemma rstrip_prefix s : exists suf, s = rstrip s ++ suf.
Proof.
  unfold rstrip. destruct (lstrip_suffix (rev s)) as [pre H].
  exists (rev pre).
  rewrite <- rev_app_distr, <- H, rev_involutive. reflexivity.
Qed.

Lemma lstrip_starts_solid s : starts_solid (lstrip s).
Proof.
  induction s as [|c s IH]; simpl; [exact I|].
  destruct (is_space c) eqn:E; [exact IH|exact E].
Qed.

Lemma lstrip_fixed s : starts_solid s -> lstrip s = s.
Proof. destruct s as [|c s]; simpl; [reflexivity|]. intros ->. reflexivity. Qed.

Lemma lstrip_snoc a c :
  is_space c = false -> lstrip (a ++ [c]) = lstrip a ++ [c].
Proof.
  intros Hc. induction a as [|d a IH]; simpl; [rewrite Hc; reflexivity|].
  destruct (is_space d); [exact IH|reflexivity].
Qed.

Lemma rstrip_starts_solid s : starts_solid s -> starts_solid (rstrip s).
Proof.
  destruct s as [|c s]; [intros _; exact I|]. simpl. intros Hc.
  unfold rstrip. simpl rev. rewrite (lstrip_snoc _ c Hc), rev_app_distr.
  simpl. exact Hc.
Qed.

Lemma strip_idempotent s : strip (strip s) = strip s.
Proof.
  unfold strip.
  rewrite (lstrip_fixed (rstrip (lstrip s)))
    by apply rstrip_starts_solid, lstrip_starts_solid.
  unfold rstrip. rewrite rev_involutive.
  rewrite (lstrip_fixed (lstrip _)) by apply lstrip_starts_solid.
  reflexivity.
Qed.

Lemma strip_infix s : exists pre suf, s = pre ++ strip s ++ suf.
Proof.
  unfold strip. destruct (lstrip_suffix s) as [pre Hpre].
  destruct (rstrip_prefix (lstrip s)) as [suf Hsuf].
  exists pre, suf. rewrite <- Hsuf. exact Hpre.
Qed.

Lemma strip_length s : (length (strip s) <= length s)%nat.
Proof.
  destruct (strip_infix s) as (pre & suf & H).
  rewrite H at 2. rewrite !length_app. lia.
Qed.

End StripFacts.

Module CleanShape.
Import SentimentAnalyzer StripFacts.

(** The whitespace substitution on its own. *)
Abbreviation squeeze := (sub_runs is_space 1 (u " ") []).

(** A pending run of whitespace comes out as one space, and swallows the
    whitespace that follows. *)
Lemma sub_runs_pending run s :
  run <> [] ->
  sub_runs is_space 1 (u " ") run s = 32 :: squeeze (lstrip s).
Proof.
  revert run. induction s as [|c s IH]; intros run Hrun.
  - simpl. unfold flush. destruct run; [congruence|]. reflexivity.
  - destruct (is_space c) eqn:E; simpl; rewrite E.
    + apply IH. destruct run; discriminate.
    + simpl. rewrite E. destruct run; [congruence|]. reflexivity.
Qed.

Lemma squeeze_cons c s :
  squeeze (c :: s)
  = if is_space c then 32 :: squeeze (lstrip s) else c :: squeeze s.
Proof.
  simpl. destruct (is_space c); [|reflexivity].
  apply sub_runs_pending. discriminate.
Qed.

Lemma lstrip_length s : (length (lstrip s) <= length s)%nat.
Proof.
  destruct (lstrip_suffix s) as [pre H]. rewrite H at 2.
  rewrite length_app. lia.
Qed.

Lemma squeeze_shape n s :
  (length s <= n)%nat ->
  no_double_space (squeeze s) = true
  /\ only_plain_spaces (squeeze s) = true
  /\ (starts_solid s -> starts_solid (squeeze s)).
Proof.
  revert s. induction n as [|n IH]; intros s Hn.
  - destruct s; [|simpl in Hn; lia]. repeat split.
  - destruct s as [|c s]; [repeat split|]. simpl in Hn.
    rewrite squeeze_cons. destruct (is_space c) eqn:Ec.
    + pose proof (lstrip_length s) as Hl.
      pose proof (lstrip_starts_solid s) as Hsolid.
      destruct (IH (lstrip s) ltac:(lia)) as (Hnd & Hps & Hst).
      specialize (Hst Hsolid). split; [|split].
      * change (no_double_space (32 :: squeeze (lstrip s)))
          with (match squeeze (lstrip s) with
                | d :: _ =>
                    negb (is_space 32 && is_space d)
                    && no_double_space (squeeze (lstrip s))
                | [] => true
                end).
        destruct (squeeze (lstrip s)) as [|d r]; [reflexivity|].
        simpl in Hst. rewrite Hst, Hnd. reflexivity.
      * unfold only_plain_spaces in *. simpl. exact Hps.
      * simpl. congruence.
    + destruct (IH s ltac:(lia)) as (Hnd & Hps & _). split; [|split].
      * change (no_double_space (c :: squeeze s))
          with (match squeeze s with
                | d :: _ =>
                    negb (is_space c && is_space d)
                    && no_double_space (squeeze s)
                | [] => true
                end).
        destruct (squeeze s) as [|d r]; [reflexivity|].
        rewrite Ec, Hnd. reflexivity.
      * unfold only_plain_spaces in *. simpl. rewrite Ec, Hps. reflexivity.
      * intros _. exact Ec.
Qed.

Lemma no_double_space_app a b :
  no_double_space (a ++ b) = true ->
  no_double_space a = true /\ no_double_space b = true.
Proof.
  induction a as [|c a IH]; [intros H; split; [reflexivity|exact H]|].
  destruct a as [|d a].
  - simpl. destruct b as [|e b]; [intros _; split; reflexivity|].
    intros H. apply andb_true_iff in H as [_ H]. split; [reflexivity|exact H].
  - intros H.
    change (negb (is_space c && is_space d)
            && no_double_space ((d :: a) ++ b) = true) in H.
    apply andb_true_iff in H as [Hcd H]. destruct (IH H) as [Ha Hb].
    split; [|exact Hb].
    change (negb (is_space c && is_space d)
            && no_double_space (d :: a) = true).
    rewrite Hcd, Ha. reflexivity.
Qed.

Lemma strip_shape s :
  no_double_space s = true -> only_plain_spaces s = true ->
  no_double_space (strip s) = true /\ only_plain_spaces (strip s) = true.
Proof.
  intros Hnd Hps. destruct (strip_infix s) as (pre & suf & H).
  rewrite H in Hnd, Hps. split.
  - apply no_double_space_app in Hnd as [_ Hnd].
    apply no_double_space_app in Hnd as [Hnd _]. exact Hnd.
  - unfold only_plain_spaces in *. rewrite !forallb_app in Hps.
    apply andb_true_iff in Hps as [_ Hps].
    apply andb_true_iff in Hps as [Hps _]. exact Hps.
Qed.

End CleanShape.

(** X1: the text [clean_text] returns has no two whitespace characters
    in a row, no whitespace other than the plain space, and no whitespace
    at either end. *)
Theorem clean_text_single_spaced (text : str) :
  no_double_space (SentimentAnalyzer.clean_text text) = true
  /\ only_plain_spaces (SentimentAnalyzer.clean_text text) = true
  /\ strip (SentimentAnalyzer.clean_text text)
     = SentimentAnalyzer.clean_text text.
Proof.
  unfold SentimentAnalyzer.clean_text.
  match goal with
  | |- context [SentimentAnalyzer.sub_runs is_space 1 (u " ") [] ?x] =>
      destruct (CleanShape.squeeze_shape (length x) x (Nat.le_refl _))
        as (Hnd & Hps & _);
      set (w := SentimentAnalyzer.sub_runs is_space 1 (u " ") [] x) in *
  end.
  destruct (CleanShape.strip_shape w Hnd Hps) as [H1 H2].
  split; [exact H1|]. split; [exact H2|]. apply StripFacts.strip_idempotent.
Qed.

(** X2: [clean_text] never returns a longer text, nor a text with more
    characters that are not whitespace. *)
Theorem clean_text_never_longer (text : str) :
  (length (SentimentAnalyzer.clean_text text) <= length text)%nat
  /\ (count nonspace (SentimentAnalyzer.clean_text text)
      <= count nonspace text)%nat.
Proof.
  split; [|apply CleanFacts.clean_text_count].
  assert (forall s, count (fun _ => true) s = length s) as Hall.
  { intros s. apply count_all. induction s; simpl; auto. }
  unfold SentimentAnalyzer.clean_text.
  etransitivity; [apply StripFacts.strip_length|].
  rewrite <- !Hall.
  etransitivity.
  { apply (CleanFacts.sub_runs_count is_space _ 1 (u " "));
      [|reflexivity].
    right. split; [reflexivity|vm_compute; lia]. }
  etransitivity.
  { apply Nat.add_le_mono_l.
    apply (CleanFacts.sub_runs_count (Z.eqb 46) _ 3 (u "..."));
      [|reflexivity].
    right. split; [reflexivity|vm_compute; lia]. }
  etransitivity.
  { do 2 apply Nat.add_le_mono_l.
    apply (CleanFacts.sub_runs_count (Z.eqb 63) _ 2 (u "?"));
      [|reflexivity].
    right. split; [reflexivity|vm_compute; lia]. }
  etransitivity.
  { do 3 apply Nat.add_le_mono_l.
    apply (CleanFacts.sub_runs_count (Z.eqb 33) _ 2 (u "!"));
      [|reflexivity].
    right. split; [reflexivity|vm_compute; lia]. }
  pose proof (CleanFacts.sub_url_count (fun _ => true) 0 text).
  change (count (fun _ : Z => true) []) with O. lia.
Qed.

(** ** What every analysis looks like *)

Module AnalysisShape.
Import SentimentAnalyzer.

(** Entries of [keywords_found] tagged ['emergency']. *)
Abbreviation emergency_pairs k :=
  (List.filter (fun pair : str * str => str_eqb (fst pair) (u "emergency")) k).

Lemma filter_tagged (tag other : str) (l : list str) :
  List.filter (fun pair : str * str => str_eqb (fst pair) other)
              (map (fun keyword => (tag, keyword)) l)
  = if str_eqb tag other then map (fun keyword => (tag, keyword)) l else [].
Proof.
  induction l as [|k l IH]; simpl; [destruct (str_eqb tag other); reflexivity|].
  rewrite IH. destruct (str_eqb tag other); reflexivity.
Qed.

Lemma find_keywords_emergency (t : str) :
  length (emergency_pairs (@_find_keywords t))
  = length (List.filter (fun keyword => substr keyword t) emergency_keywords).
Proof.
  unfold _find_keywords. rewrite !List.filter_app, !filter_tagged.
  change (str_eqb (u "emergency") (u "emergency")) with true.
  change (str_eqb (u "positive") (u "emergency")) with false.
  change (str_eqb (u "negative") (u "emergency")) with false.
  cbv iota. rewrite !app_nil_r, length_map. reflexivity.
Qed.

Lemma find_keywords_occur (t : str) (pair : str * str) :
  In pair (@_find_keywords t) -> substr (snd pair) t = true.
Proof.
  unfold _find_keywords. rewrite !in_app_iff, !in_map_iff.
  intros [H|[H|H]]; destruct H as (k & <- & Hk);
    apply filter_In in Hk as [_ Hk]; exact Hk.
Qed.

Section Shape.
Context {U : UnicodeData} {N : Nlp}.

Lemma check_level_by_count (t : str) :
  let n := length (List.filter (fun keyword => substr keyword t)
                               emergency_keywords) in
  _check_emergency_level t
  = if (2 <=? n)%nat then u "high"
    else if (n =? 1)%nat then u "medium" else u "low".
Proof. reflexivity. Qed.

(** The analysis of any text: a seven-key dictionary whose sentiment is
    ['emergency'] exactly when the level is ['high'], whose level follows
    the number of emergency entries of [keywords_found], and whose
    entries all occur in the lowercased cleaned text. *)
Lemma analysis_shape (text : str) :
  exists s p sb c l e k,
    analyze_sentiment text = sentiment_dict s p sb c l e k
    /\ In s [u "positive"; u "negative"; u "neutral"; u "emergency"]
    /\ In e [u "low"; u "medium"; u "high"]
    /\ (s = u "emergency" <-> e = u "high")
    /\ e = (let n := length (emergency_pairs k) in
            if (2 <=? n)%nat then u "high"
            else if (n =? 1)%nat then u "medium" else u "low")
    /\ (forall pair, In pair k ->
          substr (snd pair) (lower (clean_text text)) = true).
Proof.
  unfold analyze_sentiment. destruct (too_short text).
  { eexists _, _, _, _, _, _, _. split; [reflexivity|].
    split; [vm_compute; tauto|]. split; [vm_compute; tauto|].
    split; [split; intros H; vm_compute in H; discriminate|].
    split; [reflexivity|]. intros pair []. }
  lazy zeta.
  set (t := lower (clean_text text)).
  set (p := polarity_of (clean_text text)).
  pose proof (AnalyzerFacts.polarity_sentiment_not_emergency p) as Hs0.
  assert (In (if qlt (1 # 10) p then u "positive"
              else if qlt p (- (1 # 10)) then u "negative"
              else u "neutral")
             [u "positive"; u "negative"; u "neutral"]) as Hin0.
  { destruct (qlt (1 # 10) p); [left; reflexivity|].
    destruct (qlt p (- (1 # 10)));
      [right; left; reflexivity|right; right; left; reflexivity]. }
  set (s0 := if qlt (1 # 10) p then u "positive"
             else if qlt p (- (1 # 10)) then u "negative"
             else u "neutral") in *.
  assert (s0 <> u "emergency") as Hne0.
  { intros ->. vm_compute in Hs0. discriminate. }
  assert (In (_check_emergency_level t) [u "low"; u "medium"; u "high"])
    as Hlevel.
  { rewrite check_level_by_count. lazy zeta.
    destruct (2 <=? _)%nat; [right; right; left; reflexivity|].
    destruct (_ =? 1)%nat; [right; left; reflexivity|left; reflexivity]. }
  assert (_check_emergency_level t
          = (let n := length (emergency_pairs (@_find_keywords t)) in
             if (2 <=? n)%nat then u "high"
             else if (n =? 1)%nat then u "medium" else u "low")) as Hcount.
  { lazy zeta. rewrite find_keywords_emergency. apply check_level_by_count. }
  assert (forall s c,
            In s [u "positive"; u "negative"; u "neutral"] ->
            str_eqb (_check_emergency_level t) (u "high") = false ->
            exists s' p' sb' c' l' e' k',
              sentiment_dict s (round3 p)
                (round3 (subjectivity_of (clean_text text))) (round3 c)
                (detect_language (clean_text text))
                (_check_emergency_level t) (@_find_keywords t)
              = sentiment_dict s' p' sb' c' l' e' k'
              /\ In s' [u "positive"; u "negative"; u "neutral";
                        u "emergency"]
              /\ In e' [u "low"; u "medium"; u "high"]
              /\ (s' = u "emergency" <-> e' = u "high")
              /\ e' = (let n := length (emergency_pairs k') in
                       if (2 <=? n)%nat then u "high"
                       else if (n =? 1)%nat then u "medium" else u "low")
              /\ (forall pair, In pair k' -> substr (snd pair) t = true))
    as Hother.
  { intros s c Hs Hh. eexists _, _, _, _, _, _, _.
    split; [reflexivity|].
    split; [simpl in Hs; simpl; tauto|]. split; [exact Hlevel|].
    split; [|split; [exact Hcount|apply find_keywords_occur]].
    split.
    - intros ->. exfalso. destruct Hs as [H|[H|[H|[]]]];
        vm_compute in H; discriminate.
    - intros He. rewrite He in Hh. vm_compute in Hh. discriminate. }
  destruct (str_eqb (_check_emergency_level t) (u "high")) eqn:Eh.
  - apply str_eqb_eq in Eh. eexists _, _, _, _, _, _, _.
    split; [reflexivity|]. split; [vm_compute; tauto|].
    split; [exact Hlevel|]. split; [tauto|].
    split; [exact Hcount|apply find_keywords_occur].
  - destruct (existsb _ positive_keywords).
    + rewrite Hs0. apply Hother; [vm_compute; tauto|reflexivity].
    + destruct (existsb _ negative_keywords).
      * rewrite Hs0. apply Hother; [vm_compute; tauto|reflexivity].
      * apply Hother; [exact Hin0|reflexivity].
Qed.

End Shape.
End AnalysisShape.

(** X3: in every analysis the sentiment is one of four values, the
    emergency level one of three, and the sentiment is ['emergency']
    exactly when the level is ['high']. *)
Theorem sentiment_emergency_iff_high (U : UnicodeData) (N : Nlp)
  (text : str) :
  let result := SentimentAnalyzer.analyze_sentiment text in
  exists s e,
    result !! "sentiment" = Some (PyStr s)
    /\ result !! "emergency_level" = Some (PyStr e)
    /\ In s [u "positive"; u "negative"; u "neutral"; u "emergency"]
    /\ In e [u "low"; u "medium"; u "high"]
    /\ (s = u "emergency" <-> e = u "high").
Proof.
  intros result. subst result.
  destruct (AnalysisShape.analysis_shape text)
    as (s & p & sb & c & l & e & k & -> & Hs & He & Hiff & _).
  exists s, e. repeat split; try assumption; apply Hiff.
Qed.

(** X4: the emergency level of an analysis follows from its
    [keywords_found]: ['high'] for two entries tagged ['emergency'] or
    more, ['medium'] for one, ['low'] for none; and every keyword listed
    there occurs in the lowercased cleaned text. *)
Theorem keywords_found_decide_level (U : UnicodeData) (N : Nlp)
  (text : str) :
  let result := SentimentAnalyzer.analyze_sentiment text in
  exists k e,
    result !! "keywords_found" = Some (PyPairs k)
    /\ result !! "emergency_level" = Some (PyStr e)
    /\ e = (let n :=
              length (List.filter
                        (fun pair : str * str =>
                           str_eqb (fst pair) (u "emergency")) k) in
            if (2 <=? n)%nat then u "high"
            else if (n =? 1)%nat then u "medium" else u "low")
    /\ (forall pair, In pair k ->
          substr (snd pair) (lower (SentimentAnalyzer.clean_text text))
          = true).
Proof.
  intros result. subst result.
  destruct (AnalysisShape.analysis_shape text)
    as (s & p & sb & c & l & e & k & -> & _ & _ & _ & Hcount & Hocc).
  exists k, e. repeat split; assumption.
Qed.

(** *** Rounding keeps a ceiling *)

Lemma round_half_even_le (m : Z) (y : Q) :
  (y <= inject_Z m)%Q -> round_half_even y <= m.
Proof.
  intros Hy. unfold round_half_even.
  assert (Qfloor y <= m) as Hf.
  { rewrite <- (Qfloor_Z m). apply Qfloor_resp_le, Hy. }
  pose proof (Qfloor_le y) as Hfl.
  destruct (Qcompare (y - inject_Z (Qfloor y)) (1 # 2)) eqn:E; [| lia |].
  - apply Qeq_alt in E.
    assert (Qfloor y < m); [|destruct (Z.even _); lia].
    apply Z.le_neq. split; [exact Hf|]. intros Heq. rewrite Heq in E. lra.
  - apply Qgt_alt in E.
    assert (Qfloor y < m); [|lia].
    apply Z.le_neq. split; [exact Hf|]. intros Heq. rewrite Heq in E. lra.
Qed.

Lemma round3_le (m : Z) (x : Q) :
  (x * inject_Z 1000 <= inject_Z m)%Q ->
  (round3 x <= inject_Z m / inject_Z 1000)%Q.
Proof.
  intros H. unfold round3.
  apply Qmult_le_compat_r; [|discriminate].
  rewrite <- Zle_Qle. apply round_half_even_le, H.
Qed.

Lemma round3_unit (x : Q) : (0 <= x <= 1)%Q -> (0 <= round3 x <= 1)%Q.
Proof.
  intros [H0 H1]. split.
  - assert (0 == inject_Z 0 / inject_Z 1000)%Q as -> by reflexivity.
    apply round3_ge.
    assert (inject_Z 0 == 0 * inject_Z 1000)%Q as -> by reflexivity.
    apply Qmult_le_compat_r; [exact H0|discriminate].
  - assert (1 == inject_Z 1000 / inject_Z 1000)%Q as -> by reflexivity.
    apply round3_le.
    assert (inject_Z 1000 == 1 * inject_Z 1000)%Q as Heq by reflexivity.
    rewrite Heq at 2.
    apply Qmult_le_compat_r; [exact H1|discriminate].
Qed.

(** X5: when the scorer gives the cleaned text a subjectivity that is not
    negative, the confidence of the analysis lies between 0 and 1. *)
Theorem confidence_in_unit_interval (U : UnicodeData) (N : Nlp)
  (text : str) :
  (0 <= subjectivity_of (SentimentAnalyzer.clean_text text))%Q ->
  exists c,
    SentimentAnalyzer.analyze_sentiment text !! "confidence"
    = Some (PyFloat c)
    /\ (0 <= c <= 1)%Q.
Proof.
  intros Hsub. unfold SentimentAnalyzer.analyze_sentiment.
  destruct (SentimentAnalyzer.too_short text).
  { eexists. split; [apply DictFacts.get_confidence|]. split; discriminate. }
  lazy zeta.
  set (p := polarity_of (SentimentAnalyzer.clean_text text)).
  set (sb := subjectivity_of (SentimentAnalyzer.clean_text text)) in *.
  assert (0 <= Qmin (Qabs p + sb) 1 <= 1)%Q as Hbase.
  { pose proof (Qabs_nonneg p). split.
    - apply Q.min_glb; [lra|discriminate].
    - apply Q.le_min_r. }
  assert (forall f, (0 <= f <= 1)%Q ->
                    (0 <= Qmax (Qmin (Qabs p + sb) 1) f <= 1)%Q) as Hmax.
  { intros f [Hf0 Hf1]. destruct Hbase as [Hb0 Hb1]. split.
    - pose proof (Q.le_max_l (Qmin (Qabs p + sb) 1) f). lra.
    - apply Q.max_lub; assumption. }
  assert (forall s c, (0 <= c <= 1)%Q ->
            exists c',
              SentimentAnalyzer.sentiment_dict s (round3 p) (round3 sb)
                (round3 c)
                (SentimentAnalyzer.detect_language
                   (SentimentAnalyzer.clean_text text))
                (SentimentAnalyzer._check_emergency_level
                   (lower (SentimentAnalyzer.clean_text text)))
                (SentimentAnalyzer._find_keywords
                   (lower (SentimentAnalyzer.clean_text text)))
              !! "confidence" = Some (PyFloat c') /\ (0 <= c' <= 1)%Q)
    as Hdone.
  { intros s c Hc. eexists. split; [apply DictFacts.get_confidence|].
    apply round3_unit, Hc. }
  repeat match goal with
         | |- context [if ?b then _ else _] => destruct b
         end;
    apply Hdone; first [exact Hbase | apply Hmax; split; discriminate].
Qed.

Lemma confidence_in_unit_interval_witness :
  exists c,
    @SentimentAnalyzer.analyze_sentiment Latin1.tables
      (constant_nlp (- (8 # 10)) (9 # 10)) (u "I hate this agora")
    !! "confidence" = Some (PyFloat c)
    /\ (0 <= c <= 1)%Q.
Proof.
  apply (confidence_in_unit_interval Latin1.tables
           (constant_nlp (- (8 # 10)) (9 # 10)) (u "I hate this agora")).
  discriminate.
Defined.

(** X6: [get_response_tone] never fails on an analysis; the priority it
    gives is ['high'] exactly when the emergency level is ['high'],
    ['medium'] whenever the level is ['medium'], and ['normal'] only for
    a level ['low'] with a sentiment that is not negative. *)
Theorem tone_of_analysis (U : UnicodeData) (N : Nlp) (text : str) :
  let result := SentimentAnalyzer.analyze_sentiment text in
  exists t s e,
    SentimentAnalyzer.get_response_tone result = Some t
    /\ result !! "sentiment" = Some (PyStr s)
    /\ result !! "emergency_level" = Some (PyStr e)
    /\ (SentimentAnalyzer.priority t = u "high" <-> e = u "high")
    /\ (SentimentAnalyzer.tone t = u "urgent_supportive" <-> e = u "high")
    /\ (e = u "medium" -> SentimentAnalyzer.priority t = u "medium")
    /\ (SentimentAnalyzer.priority t = u "normal" ->
          e = u "low" /\ s <> u "negative").
Proof.
  intros result. subst result.
  destruct (AnalysisShape.analysis_shape text)
    as (s & p & sb & c & l & e & k & -> & Hs & He & Hiff & _).
  unfold SentimentAnalyzer.get_response_tone.
  rewrite DictFacts.get_sentiment, DictFacts.get_emergency_level.
  cbn [mbind option_bind SentimentAnalyzer.is_str].
  assert (e = u "high" -> s = u "emergency") as H1 by apply Hiff.
  assert (s = u "emergency" -> e = u "high") as H2 by apply Hiff.
  clear Hiff.
  destruct Hs as [<-|[<-|[<-|[<-|[]]]]];
    destruct He as [<-|[<-|[<-|[]]]];
    try (exfalso; specialize (H1 eq_refl); vm_compute in H1; discriminate);
    try (exfalso; specialize (H2 eq_refl); vm_compute in H2; discriminate);
    eexists _, _, _; (split; [vm_compute; reflexivity|]);
    (split; [reflexivity|]); (split; [reflexivity|]);
    repeat split; try (intros Hx; vm_compute in Hx; try discriminate);
    try reflexivity; try (intros Hy; vm_compute in Hy; discriminate);
    match goal with
    | Hp : SentimentAnalyzer.priority _ = _ |- _ =>
        vm_compute in Hp; discriminate Hp
    end.
Qed.

Lemma tone_of_analysis_witness :
  let result :=
    @SentimentAnalyzer.analyze_sentiment Latin1.tables (constant_nlp 0 0)
      (u "preciso disso agora") in
  exists t,
    SentimentAnalyzer.get_response_tone result = Some t
    /\ SentimentAnalyzer.priority t = u "medium".
Proof.
  intros result.
  destruct (tone_of_analysis Latin1.tables (constant_nlp 0 0)
              (u "preciso disso agora"))
    as (t & s & e & Ht & _ & He & _ & _ & Hmed & _).
  exists t. split; [exact Ht|]. apply Hmed.
  vm_compute in He. injection He as <-. reflexivity.
Defined.

(** ** The trend of a conversation *)

Module TrendFacts.
Import SentimentAnalyzer.

Section Facts.
Context {U : UnicodeData} {N : Nlp}.

Lemma mapM_cons {A B} (f : A -> option B) (x : A) (l : list A) :
  mapM f (x :: l) = y ← f x; k ← mapM f l; Some (y :: k).
Proof. reflexivity. Qed.

(** The entry of one message, its polarity and its test. *)
Lemma entry_of_message (message : str) :
  exists entry p b,
    progression_entry (analyze_sentiment message) = Some entry
    /\ polarity_term entry = Some p
    /\ entry_is_high entry = Some b
    /\ (b = true <->
        analyze_sentiment message !! "emergency_level"
        = Some (PyStr (u "high"))).
Proof.
  destruct (AnalysisShape.analysis_shape message)
    as (s & p & sb & c & l & e & k & -> & _ & _ & _ & _).
  unfold progression_entry.
  rewrite DictFacts.get_sentiment, DictFacts.get_polarity,
    DictFacts.get_emergency_level.
  cbn [mbind option_bind].
  eexists _, p, (str_eqb e (u "high")).
  split; [reflexivity|]. split; [reflexivity|]. split; [reflexivity|].
  rewrite str_eqb_eq. split; [intros ->; reflexivity|intros [= ->]].
  reflexivity.
Qed.

Lemma entries_of_messages (messages : list str) :
  exists entries ps bs,
    mapM (fun message => progression_entry (analyze_sentiment message))
         messages = Some entries
    /\ mapM polarity_term entries = Some ps
    /\ mapM entry_is_high entries = Some bs
    /\ length entries = length messages
    /\ (existsb id bs = true <->
        exists message,
          In message messages
          /\ analyze_sentiment message !! "emergency_level"
             = Some (PyStr (u "high"))).
Proof.
  induction messages as [|m messages IH].
  - exists [], [], []. repeat split; try reflexivity.
    + discriminate.
    + intros (message & [] & _).
  - destruct IH as (entries & ps & bs & H1 & H2 & H3 & Hlen & Hiff).
    destruct (entry_of_message m) as (entry & p & b & E1 & E2 & E3 & Eb).
    exists (entry :: entries), (p :: ps), (b :: bs).
    rewrite !mapM_cons, E1, H1, E2, H2, E3, H3.
    cbn [mbind option_bind length existsb id].
    split; [reflexivity|]. split; [reflexivity|]. split; [reflexivity|].
    split; [rewrite Hlen; reflexivity|].
    rewrite orb_true_iff, Hiff, Eb. split.
    + intros [H|(message & Hin & H)].
      * exists m. split; [left; reflexivity|exact H].
      * exists message. split; [right; exact Hin|exact H].
    + intros (message & [<-|Hin] & H); [left; exact H|].
      right. exists message. split; assumption.
Qed.

End Facts.
End TrendFacts.

(** X7: [analyze_conversation_trend] never fails. For no message it
    answers trend ['neutral'] in a dictionary without the keys
    ['has_emergency'] and ['average_polarity']. For one message or more,
    ['has_emergency'] is true exactly when some message has emergency
    level ['high'], the trend is ['emergency'] exactly then, whatever the
    polarities, the trend is never ['neutral'], and the progression has
    one entry per message. *)
Theorem conversation_trend (U : UnicodeData) (N : Nlp)
  (messages : list str) :
  exists r,
    SentimentAnalyzer.analyze_conversation_trend messages = Some r
    /\ (messages = [] ->
          r !! "trend" = Some (SentimentAnalyzer.TrStr (u "neutral"))
          /\ r !! "has_emergency" = None
          /\ r !! "average_polarity" = None)
    /\ (messages <> [] ->
          exists b progression,
            r !! "has_emergency" = Some (SentimentAnalyzer.TrBool b)
            /\ (b = true <->
                exists message,
                  In message messages
                  /\ SentimentAnalyzer.analyze_sentiment message
                     !! "emergency_level" = Some (PyStr (u "high")))
            /\ (r !! "trend"
                = Some (SentimentAnalyzer.TrStr (u "emergency"))
                <-> b = true)
            /\ r !! "trend" <> Some (SentimentAnalyzer.TrStr (u "neutral"))
            /\ r !! "progression"
               = Some (SentimentAnalyzer.TrList progression)
            /\ length progression = length messages).
Proof.
  destruct messages as [|m messages].
  { eexists. split; [reflexivity|]. split; [|congruence].
    intros _. repeat split. }
  destruct (TrendFacts.entries_of_messages (m :: messages))
    as (entries & ps & bs & H1 & H2 & H3 & Hlen & Hiff).
  unfold SentimentAnalyzer.analyze_conversation_trend.
  rewrite H1. cbn [mbind option_bind]. rewrite H2.
  cbn [mbind option_bind]. rewrite H3. cbn [mbind option_bind].
  eexists. split; [reflexivity|]. split; [discriminate|]. intros _.
  exists (existsb id bs), entries.
  split; [reflexivity|]. split; [exact Hiff|].
  split; [|split; [|split; [reflexivity|exact Hlen]]].
  - rewrite lookup_insert_eq. destruct (existsb id bs).
    + split; reflexivity.
    + split; [|discriminate]. intros H. exfalso.
      repeat match type of H with
             | context [if ?c then _ else _] => destruct c
             end;
        vm_compute in H; discriminate.
  - rewrite lookup_insert_eq. intros H.
    repeat match type of H with
           | context [if ?c then _ else _] => destruct c
           end;
      vm_compute in H; discriminate.
Qed.

Lemma conversation_trend_witness :
  let N := constant_nlp (5 # 10) (5 # 10) in
  exists r,
    @SentimentAnalyzer.analyze_conversation_trend Latin1.tables N
      [u "estou muito bem hoje"; u "socorro, é uma emergência"] = Some r
    /\ r !! "trend" = Some (SentimentAnalyzer.TrStr (u "emergency"))
    /\ r !! "has_emergency" = Some (SentimentAnalyzer.TrBool true).
Proof.
  intros N.
  destruct (conversation_trend Latin1.tables N
              [u "estou muito bem hoje"; u "socorro, é uma emergência"])
    as (r & Hr & _ & Hne).
  exists r. split; [exact Hr|].
  destruct (Hne ltac:(discriminate))
    as (b & progression & Hb & Hiff & Htrend & _).
  assert (b = true) as ->.
  { apply Hiff. exists (u "socorro, é uma emergência").
    split; [right; left; reflexivity|vm_compute; reflexivity]. }
  split; [apply Htrend; reflexivity|exact Hb].
Defined.

(** ** Containment composes *)

Lemma startswith_prefix p b : startswith p (p ++ b) = true.
Proof.
  induction p as [|a p IH]; [reflexivity|]. simpl.
  rewrite Z.eqb_refl. exact IH.
Qed.

Lemma substr_startswith k s : startswith k s = true -> substr k s = true.
Proof. destruct s; simpl; intros ->; reflexivity. Qed.

Lemma substr_infix a k b : substr k (a ++ k ++ b) = true.
Proof.
  induction a as [|c a IH].
  - change ([] ++ k ++ b) with (k ++ b).
    apply substr_startswith, startswith_prefix.
  - simpl. rewrite IH. apply orb_true_r.
Qed.

Lemma substr_trans a b c :
  substr a b = true -> substr b c = true -> substr a c = true.
Proof.
  intros Hab Hbc.
  apply substr_app in Hab as (x & y & ->).
  apply substr_app in Hbc as (x' & y' & ->).
  replace (x' ++ (x ++ a ++ y) ++ y') with ((x' ++ x) ++ a ++ (y ++ y'))
    by (rewrite <- !app_assoc; reflexivity).
  apply substr_infix.
Qed.

(** ** The classifier reads the normalized text only *)

Module ClassifierFacts.
Import ClinicaChatbot.

Section Facts.
Context {U : UnicodeData}.

Lemma contains_keywords_same (a b : str) (keywords : list str) :
  normalize_text a = normalize_text b ->
  contains_keywords a keywords = contains_keywords b keywords.
Proof. unfold contains_keywords. intros ->. reflexivity. Qed.

Lemma fallback_same (a b : str) :
  normalize_text a = normalize_text b ->
  get_response_fallback a = get_response_fallback b.
Proof.
  intros H. unfold get_response_fallback.
  rewrite !(contains_keywords_same a b _ H). reflexivity.
Qed.

(** A phrase that holds a keyword brings the keyword with it. *)
Lemma contains_keywords_through (msg phrase keyword : str)
  (keywords : list str) :
  In keyword keywords ->
  substr (normalize_text keyword) (normalize_text phrase) = true ->
  substr (normalize_text phrase) (normalize_text msg) = true ->
  contains_keywords msg keywords = true.
Proof.
  intros Hin H1 H2. unfold contains_keywords.
  apply existsb_exists. exists keyword. split; [exact Hin|].
  exact (substr_trans _ _ _ H1 H2).
Qed.

End Facts.
End ClassifierFacts.

(** X8: the fallback classifier reads a message through [normalize_text]
    only: two messages with the same normalized text get the same answer,
    and so do a message and its own normalized text, which makes the
    answer blind to case, accents and punctuation. *)
Theorem fallback_reads_normalized_text (U : UnicodeData)
  (L : UnicodeLaws U) (a b : str) :
  (normalize_text a = normalize_text b ->
   ClinicaChatbot.get_response_fallback a
   = ClinicaChatbot.get_response_fallback b)
  /\ ClinicaChatbot.get_response_fallback (normalize_text a)
     = ClinicaChatbot.get_response_fallback a.
Proof.
  split; [apply ClassifierFacts.fallback_same|].
  apply ClassifierFacts.fallback_same.
  apply normalize_text_plain, normalize_text_output_plain.
Qed.

Lemma fallback_reads_normalized_text_witness :
  UnicodeLaws Latin1.tables
  /\ @ClinicaChatbot.get_response_fallback Latin1.tables
       (u "COMO IDENTIFICAR ALGUÉM VICIADO?!")
     = @ClinicaChatbot.get_response_fallback Latin1.tables
         (u "como identificar alguem viciado").
Proof.
  split; [exact Latin1Facts.laws|].
  apply (proj1 (fallback_reads_normalized_text Latin1.tables
                  Latin1Facts.laws (u "COMO IDENTIFICAR ALGUÉM VICIADO?!")
                  (u "como identificar alguem viciado"))).
  vm_compute. reflexivity.
Defined.

(** X9: an emergency keyword that holds a treatment or dependency keyword
    never selects the emergency answer: a message that contains it is
    answered by the identification text or deferred to the providers,
    since those two tests come first. 'ajuda imediata', which holds
    'ajuda', is such a keyword. *)
Theorem shadowed_emergency_keyword (U : UnicodeData) (msg phrase
  keyword : str) :
  In phrase ClinicaChatbot.emergencia_keywords ->
  In keyword (ClinicaChatbot.tratamento_keywords
              ++ ClinicaChatbot.dependencia_keywords) ->
  substr (normalize_text keyword) (normalize_text phrase) = true ->
  substr (normalize_text phrase) (normalize_text msg) = true ->
  ClinicaChatbot.get_response_fallback msg
  <> Some ClinicaChatbot.resposta_emergencia
  /\ (ClinicaChatbot.get_response_fallback msg = None
      \/ ClinicaChatbot.get_response_fallback msg
         = Some ClinicaChatbot.resposta_identificacao).
Proof.
  intros _ Hin H1 H2.
  pose proof (ClassifierFacts.contains_keywords_through msg phrase keyword
                _ Hin H1 H2) as Hkw.
  unfold ClinicaChatbot.get_response_fallback. rewrite Hkw.
  destruct (contains_keywords msg ClinicaChatbot.identificacao_keywords).
  - split; [|right; reflexivity].
    intros H. apply (f_equal (fmap length)) in H. vm_compute in H.
    discriminate.
  - split; [discriminate|left; reflexivity].
Qed.

Lemma shadowed_emergency_keyword_witness :
  let msg := u "Preciso de ajuda imediata!" in
  In (u "ajuda imediata") ClinicaChatbot.emergencia_keywords
  /\ @contains_keywords Latin1.tables msg ClinicaChatbot.emergencia_keywords
     = true
  /\ @ClinicaChatbot.get_response_fallback Latin1.tables msg
     <> Some ClinicaChatbot.resposta_emergencia.
Proof.
  intros msg. split; [vm_compute; tauto|].
  split; [vm_compute; reflexivity|].
  apply (shadowed_emergency_keyword Latin1.tables msg (u "ajuda imediata")
           (u "ajuda")).
  - vm_compute. tauto.
  - vm_compute. tauto.
  - vm_compute. reflexivity.
  - vm_compute. reflexivity.
Defined.

(** ** More on the urgency pass *)

(** X10: the sentiment never lowers the priority of the keyword pass:
    whatever dictionary is given, the urgency sent to the CRM is one of
    ['baixa'], ['média'], ['alta'] and ranks at least as high as the
    keyword pass alone; without a dictionary it is the keyword pass. *)
Theorem urgency_never_lowered (U : UnicodeData) (msg : str)
  (sid : option str) (d : option (gmap string pyval))
  (l : ClinicaChatbot.lead_data) :
  ClinicaChatbot.detect_urgency_and_create_ticket msg sid d = Some l ->
  In (ClinicaChatbot.urgency l) [u "baixa"; u "média"; u "alta"]
  /\ (ClinicaChatbot.priority_rank (ClinicaChatbot.keyword_priority msg)
      <= ClinicaChatbot.priority_rank (ClinicaChatbot.urgency l))%nat
  /\ (d = None ->
      ClinicaChatbot.urgency l = ClinicaChatbot.keyword_priority msg).
Proof.
  unfold ClinicaChatbot.detect_urgency_and_create_ticket,
    ClinicaChatbot.keyword_priority.
  destruct (existsb _ ClinicaChatbot.high_priority_keywords);
    [|destruct (existsb _ ClinicaChatbot.medium_priority_keywords)];
    (destruct d as [d|];
     [destruct (bool_decide (d = ∅));
      [|destruct (get_float d "polarity" 0) as [p|];
        [destruct (qlt p (- (5 # 10)) && truthy_get d "emergency_keywords");
         [|destruct (qlt p (- (3 # 10)))]|]]|]);
    lazy beta iota zeta;
    try change (str_eqb (u "alta") (u "baixa")) with false;
    try change (str_eqb (u "média") (u "baixa")) with false;
    try change (str_eqb (u "baixa") (u "baixa")) with true;
    lazy beta iota;
    intros [= <-]; cbn [ClinicaChatbot.urgency];
    (split; [vm_compute; tauto|]);
    (split; [vm_compute; lia|]);
    first [discriminate | intros _; reflexivity].
Qed.

Lemma urgency_never_lowered_witness :
  let N := constant_nlp (- (4 # 10)) (5 # 10) in
  let msg := u "bom dia, tudo bem?" in
  let result := @SentimentAnalyzer.analyze_sentiment Latin1.tables N msg in
  let l :=
    {| ClinicaChatbot.lead_session_id := None;
       ClinicaChatbot.lead_message := msg;
       ClinicaChatbot.urgency := u "média";
       ClinicaChatbot.source := u "chatbot";
       ClinicaChatbot.lead_sentiment := Some result |} in
  @ClinicaChatbot.detect_urgency_and_create_ticket Latin1.tables msg None
    (Some result) = Some l
  /\ (ClinicaChatbot.priority_rank
        (@ClinicaChatbot.keyword_priority Latin1.tables msg)
      <= ClinicaChatbot.priority_rank (ClinicaChatbot.urgency l))%nat.
Proof.
  intros N msg result l.
  assert (@ClinicaChatbot.detect_urgency_and_create_ticket Latin1.tables
            msg None (Some result) = Some l) as E
    by (vm_compute; reflexivity).
  split; [exact E|].
  exact (proj1 (proj2 (urgency_never_lowered Latin1.tables msg None
                         (Some result) l E))).
Defined.

(** ** What [get_response] leaves behind *)

Module AnswerFacts.
Import ClinicaChatbot.

Section Facts.
Context {U : UnicodeData} {N : Nlp}.
Variable W : World.

Lemma get_response_lead (self : t) (msg : str) (cid : option str)
  (language : str) :
  lead (get_response W self msg cid language)
  = detect_urgency_and_create_ticket
      msg cid (Some (SentimentAnalyzer.analyze_sentiment msg)).
Proof.
  unfold get_response. lazy zeta.
  destruct (if _ || _ then provider_chain W (heard self msg) msg
            else (None, [])) as [r c].
  reflexivity.
Qed.

Lemma get_response_history (self : t) (msg : str) (cid : option str)
  (language : str) :
  conversation_history (self_after (get_response W self msg cid language))
  = conversation_history self
    ++ [{| role := u "user"; content := Some msg;
           sentiment := Some (SentimentAnalyzer.analyze_sentiment msg) |};
        {| role := u "assistant";
           content := response (get_response W self msg cid language);
           sentiment := None |}].
Proof.
  unfold get_response. lazy zeta.
  destruct (if _ || _ then provider_chain W (heard self msg) msg
            else (None, [])) as [r c].
  cbn [self_after response append heard conversation_history].
  rewrite <- app_assoc. reflexivity.
Qed.

End Facts.
End AnswerFacts.

(** ** More on the chat route *)

Module TicketFacts.
Import Route.

(** Every keyword of the route's priority test holds a high-priority
    keyword of the urgency pass. *)
Lemma chat_keywords_hold_high (t : str) :
  existsb (fun keyword => substr keyword t) chat_priority_keywords = true ->
  existsb (fun keyword => substr keyword t)
          ClinicaChatbot.high_priority_keywords = true.
Proof.
  assert (forallb
            (fun k => existsb (fun h => substr h k)
                        ClinicaChatbot.high_priority_keywords)
            chat_priority_keywords = true) as Hall
    by (vm_compute; reflexivity).
  rewrite forallb_forall in Hall.
  intros H. apply existsb_exists in H as (k & Hk & Hsub).
  specialize (Hall k Hk). apply existsb_exists in Hall as (h & Hh & Hhk).
  apply existsb_exists. exists h. split; [exact Hh|].
  exact (substr_trans _ _ _ Hhk Hsub).
Qed.

Lemma CreateTicket_inj k t d p k' t' d' p' :
  CreateTicket k t d p = CreateTicket k' t' d' p' ->
  k = k' /\ t = t' /\ d = d' /\ p = p'.
Proof. intros H. injection H. auto. Qed.

Section Facts.
Context {U : UnicodeData} {N : Nlp}.
Variable W : World.

(** The events of one request, read off the ticket block. *)
Lemma chat_events (srv : server) (req : request) (e : event) :
  In e (snd (chat W srv req)) ->
  let msg := strip (default [] (message req)) in
  msg <> []
  /\ ((exists id, e = SendTicketNotification id)
      \/ e = CreateTicket (session_key req)
               (u "Nova conversa - " ++ slice_to 50 msg
                ++ (if (50 <? length msg)%nat then u "..." else []))
               (u "Primeira mensagem: " ++ msg)
               (if existsb (fun keyword => substr keyword (lower msg))
                           chat_priority_keywords
                then u "alta" else u "media")).
Proof.
  unfold chat.
  destruct (str_eqb (strip (default [] (message req))) []) eqn:Eempty.
  { intros []. }
  lazy zeta.
  assert (strip (default [] (message req)) <> []) as Hne.
  { intros H. rewrite H in Eempty. vm_compute in Eempty. discriminate. }
  destruct (DatabaseManager.get_tickets_by_session _ _); [|intros []].
  destruct (DatabaseManager.create_ticket _ _ _ _ _) as [[id db']|];
    cbn [snd]; intros Hin; (split; [exact Hne|]).
  - destruct Hin as [<-|[<-|[]]]; [right; reflexivity|left; eauto].
  - destruct Hin as [<-|[]]. right. reflexivity.
Qed.

End Facts.
End TicketFacts.

(** X11: when the route files a ticket with priority ['alta'], the lead
    that [get_response] sent to the CRM for the same message has urgency
    ['alta'] too: each keyword of the route's test holds a high-priority
    keyword of the urgency pass. *)
Theorem alta_ticket_implies_alta_lead (U : UnicodeData) (N : Nlp)
  (W : World) (srv : Route.server) (req : Route.request)
  (key : option str) (title description : str) :
  In (Route.CreateTicket key title description (u "alta"))
     (snd (Route.chat W srv req)) ->
  ClinicaChatbot.urgency
    <$> ClinicaChatbot.lead
          (ClinicaChatbot.get_response W (Route.chatbot srv)
             (strip (default [] (Route.message req)))
             (Route.conversation_id req) (u "pt"))
  = Some (u "alta").
Proof.
  intros Hin. apply TicketFacts.chat_events in Hin.
  lazy zeta in Hin. destruct Hin as [_ [[id Hid]|Heq]]; [discriminate Hid|].
  apply TicketFacts.CreateTicket_inj in Heq as (_ & _ & _ & Hprio).
  rewrite AnswerFacts.get_response_lead.
  destruct (UrgencyFacts.urgency_alta_only_by_keyword
              (strip (default [] (Route.message req)))
              (Route.conversation_id req)) as (l & -> & Hiff).
  cbn [fmap option_fmap option_map]. f_equal. apply Hiff.
  apply TicketFacts.chat_keywords_hold_high.
  destruct (existsb _ Route.chat_priority_keywords) eqn:E; [reflexivity|].
  vm_compute in Hprio. discriminate Hprio.
Qed.

Lemma alta_ticket_implies_alta_lead_witness :
  let srv := {| Route.chatbot := new_chatbot; Route.db := empty_db |} in
  let req :=
    {| Route.message := Some (u "  Preciso de ajuda imediata  ");
       Route.session_id := Some (u "s1");
       Route.conversation_id := None |} in
  ClinicaChatbot.urgency
    <$> ClinicaChatbot.lead
          (@ClinicaChatbot.get_response Latin1.tables (constant_nlp 0 0)
             offline new_chatbot (u "Preciso de ajuda imediata") None
             (u "pt"))
  = Some (u "alta").
Proof.
  intros srv req.
  apply (alta_ticket_implies_alta_lead Latin1.tables (constant_nlp 0 0)
           offline srv req (Some (u "s1"))
           (u "Nova conversa - Preciso de ajuda imediata")
           (u "Primeira mensagem: Preciso de ajuda imediata")).
  vm_compute. left. reflexivity.
Defined.

(** X12: an automatic ticket is filed under the session key of the
    request, for a message that is not blank; its title has at most 69
    characters and is "Nova conversa - " followed by the whole message
    when that has 50 characters or fewer; its description ends with the
    whole message; its priority is ['alta'] or ['media'], never
    ['baixa']. *)
Theorem automatic_ticket_fields (U : UnicodeData) (N : Nlp) (W : World)
  (srv : Route.server) (req : Route.request) (key : option str)
  (title description priority : str) :
  In (Route.CreateTicket key title description priority)
     (snd (Route.chat W srv req)) ->
  let msg := strip (default [] (Route.message req)) in
  key = Route.session_key req
  /\ msg <> []
  /\ (length title <= 69)%nat
  /\ startswith (u "Nova conversa - ") title = true
  /\ ((length msg <= 50)%nat -> title = u "Nova conversa - " ++ msg)
  /\ description = u "Primeira mensagem: " ++ msg
  /\ In priority [u "alta"; u "media"].
Proof.
  intros Hin msg. apply TicketFacts.chat_events in Hin.
  lazy zeta in Hin. fold msg in Hin.
  destruct Hin as [Hne [[id Hid]|Heq]]; [discriminate Hid|].
  apply TicketFacts.CreateTicket_inj in Heq as (-> & -> & -> & ->).
  split; [reflexivity|]. split; [exact Hne|]. split; [|split; [|split]].
  - rewrite !length_app. unfold slice_to.
    change (length (u "Nova conversa - ")) with 16%nat.
    rewrite length_take.
    destruct (50 <? length msg)%nat eqn:E.
    + change (length (u "...")) with 3%nat. lia.
    + simpl length. lia.
  - apply startswith_prefix.
  - intros Hlen. unfold slice_to. rewrite take_ge by exact Hlen.
    apply Nat.ltb_ge in Hlen. rewrite Hlen, app_nil_r. reflexivity.
  - split; [reflexivity|].
    destruct (existsb _ Route.chat_priority_keywords);
      [left; reflexivity|right; left; reflexivity].
Qed.

Lemma automatic_ticket_fields_witness :
  let srv := {| Route.chatbot := new_chatbot; Route.db := empty_db |} in
  let req :=
    {| Route.message := Some (u " oi ");
       Route.session_id := Some (u "s1");
       Route.conversation_id := None |} in
  In (Route.CreateTicket (Some (u "s1")) (u "Nova conversa - oi")
        (u "Primeira mensagem: oi") (u "media"))
     (snd (@Route.chat Latin1.tables (constant_nlp 0 0) offline srv req))
  /\ (length (u "Nova conversa - oi") <= 69)%nat.
Proof.
  intros srv req.
  assert (In (Route.CreateTicket (Some (u "s1")) (u "Nova conversa - oi")
                (u "Primeira mensagem: oi") (u "media"))
             (snd (@Route.chat Latin1.tables (constant_nlp 0 0) offline srv
                     req))) as Hin by (vm_compute; left; reflexivity).
  split; [exact Hin|].
  exact (proj1 (proj2 (proj2 (automatic_ticket_fields Latin1.tables
                                (constant_nlp 0 0) offline srv req _ _ _ _
                                Hin)))).
Defined.

(** X13: a request with a message but with neither [session_id] nor a
    cookie conversation is answered, yet nothing of it is stored: the
    conversation row is refused, [create_ticket] is called and refused,
    and no notification is sent. *)
Theorem request_without_session (U : UnicodeData) (N : Nlp) (W : World)
  (srv : Route.server) (req : Route.request) :
  Route.accepted req = true ->
  Route.session_key req = None ->
  exists r title description priority,
    fst (fst (Route.chat W srv req)) = Route.Ok r None
    /\ Route.db (snd (fst (Route.chat W srv req))) = Route.db srv
    /\ snd (Route.chat W srv req)
       = [Route.CreateTicket None title description priority].
Proof.
  unfold Route.accepted, Route.chat. intros Hacc Hkey.
  apply negb_true_iff in Hacc. rewrite Hacc, Hkey.
  eexists _, _, _, _. repeat split.
Qed.

Lemma request_without_session_witness :
  let srv := {| Route.chatbot := new_chatbot; Route.db := empty_db |} in
  let req :=
    {| Route.message := Some (u "oi"); Route.session_id := None;
       Route.conversation_id := None |} in
  Route.db (snd (fst (@Route.chat Latin1.tables (constant_nlp 0 0) offline
                        srv req))) = empty_db
  /\ length (snd (@Route.chat Latin1.tables (constant_nlp 0 0) offline
                    srv req)) = 1%nat.
Proof.
  intros srv req.
  destruct (request_without_session Latin1.tables (constant_nlp 0 0)
              offline srv req eq_refl eq_refl)
    as (r & t & d & p & _ & Hdb & Hev).
  split; [exact Hdb|]. rewrite Hev. reflexivity.
Defined.

(** X14: the one chatbot instance serves every session: a request the
    route answers appends two entries to its history, the message of the
    user and the answer that is returned, and after any run the history
    has grown by two entries per answered request, whatever the
    sessions. *)
Theorem shared_history_grows (U : UnicodeData) (N : Nlp) (W : World)
  (srv : Route.server) (reqs : list Route.request) :
  (forall req, Route.accepted req = true ->
     exists r key,
       fst (fst (Route.chat W srv req)) = Route.Ok r key
       /\ ClinicaChatbot.conversation_history
            (Route.chatbot (snd (fst (Route.chat W srv req))))
          = ClinicaChatbot.conversation_history (Route.chatbot srv)
            ++ [{| role := u "user";
                   content := Some (strip (default [] (Route.message req)));
                   sentiment :=
                     Some (SentimentAnalyzer.analyze_sentiment
                             (strip (default [] (Route.message req)))) |};
                {| role := u "assistant"; content := r;
                   sentiment := None |}])
  /\ length (ClinicaChatbot.conversation_history
               (Route.chatbot (fst (Route.serve W srv reqs))))
     = (length (ClinicaChatbot.conversation_history (Route.chatbot srv))
        + 2 * length (List.filter Route.accepted reqs))%nat.
Proof.
  assert (forall srv req, Route.accepted req = true ->
     exists r key,
       fst (fst (Route.chat W srv req)) = Route.Ok r key
       /\ ClinicaChatbot.conversation_history
            (Route.chatbot (snd (fst (Route.chat W srv req))))
          = ClinicaChatbot.conversation_history (Route.chatbot srv)
            ++ [{| role := u "user";
                   content := Some (strip (default [] (Route.message req)));
                   sentiment :=
                     Some (SentimentAnalyzer.analyze_sentiment
                             (strip (default [] (Route.message req)))) |};
                {| role := u "assistant"; content := r;
                   sentiment := None |}]) as Hstep.
  { clear srv. intros srv req Hacc. unfold Route.accepted in Hacc.
    apply negb_true_iff in Hacc. unfold Route.chat. rewrite Hacc.
    lazy zeta.
    destruct (DatabaseManager.get_tickets_by_session _ _);
      [destruct (DatabaseManager.create_ticket _ _ _ _ _) as [[id db']|]|];
      cbn [fst snd Route.chatbot]; eexists _, _;
      (split; [reflexivity|]); apply AnswerFacts.get_response_history. }
  split; [apply Hstep|].
  revert srv. induction reqs as [|req reqs IH]; intros srv.
  - cbn [Route.serve fst List.filter length]. lia.
  - rewrite RouteFacts.serve_cons. cbn [fst List.filter]. rewrite IH.
    destruct (Route.accepted req) eqn:Hacc.
    + destruct (Hstep srv req Hacc) as (r & key & _ & ->).
      rewrite length_app. cbn [length]. lia.
    + unfold Route.accepted in Hacc. apply negb_false_iff in Hacc.
      unfold Route.chat. rewrite Hacc. cbn [fst snd]. lia.
Qed.

Lemma shared_history_grows_witness :
  let srv := {| Route.chatbot := new_chatbot; Route.db := empty_db |} in
  let req session text :=
    {| Route.message := Some (u text); Route.session_id := Some (u session);
       Route.conversation_id := None |} in
  length (ClinicaChatbot.conversation_history
            (Route.chatbot
               (snd (fst (@Route.chat Latin1.tables (constant_nlp 0 0)
                            offline srv (req "s1" "oi")))))) = 2%nat.
Proof.
  intros srv req.
  destruct (proj1 (shared_history_grows Latin1.tables (constant_nlp 0 0)
                     offline srv []) (req "s1" "oi") eq_refl)
    as (r & key & _ & ->).
  reflexivity.
Defined.

(** ** The Hugging Face answer without its prompt *)

Module ReplaceFacts.

Lemma replace_from_skip old new k s :
  (k <= length s)%nat ->
  replace_from old new k s = replace_from old new 0 (drop k s).
Proof.
  revert k. induction s as [|c s IH]; intros k Hk.
  - destruct k; [reflexivity|simpl in Hk; lia].
  - destruct k as [|k]; [reflexivity|]. simpl in Hk. simpl.
    apply IH. lia.
Qed.

Lemma replace_from_absent old new s :
  old <> [] -> substr old s = false -> replace_from old new 0 s = s.
Proof.
  intros Hold. induction s as [|c s IH]; [reflexivity|].
  intros H. simpl in H. apply orb_false_iff in H as [Hstart Hrest].
  change (replace_from old new 0 (c :: s))
    with (if startswith old (c :: s)
          then new ++ replace_from old new (length old - 1) s
          else c :: replace_from old new 0 s).
  rewrite Hstart, (IH Hrest). reflexivity.
Qed.

(** A text that starts with [old] and holds it nowhere else. *)
Lemma replace_echo old new rest :
  old <> [] -> substr old rest = false ->
  replace old new (old ++ rest) = new ++ rest.
Proof.
  intros Hold Hrest. destruct old as [|c old]; [congruence|].
  unfold replace.
  change (replace_from (c :: old) new 0 ((c :: old) ++ rest))
    with (if startswith (c :: old) ((c :: old) ++ rest)
          then new ++ replace_from (c :: old) new (length (c :: old) - 1)
                        (old ++ rest)
          else c :: replace_from (c :: old) new 0 (old ++ rest)).
  rewrite startswith_prefix. f_equal.
  rewrite replace_from_skip by (simpl; rewrite length_app; lia).
  replace (length (c :: old) - 1)%nat with (length old) by (simpl; lia).
  rewrite drop_app_length. apply replace_from_absent; assumption.
Qed.

Lemma hf_inputs_not_empty msg : ClinicaChatbot.hf_inputs msg <> [].
Proof.
  unfold ClinicaChatbot.hf_inputs. intros H.
  apply app_eq_nil in H as [H _]. vm_compute in H. discriminate H.
Qed.

End ReplaceFacts.

(** X15: when the Hugging Face service answers status 200 with a text
    made of the prompt followed by a continuation that does not hold the
    prompt again, [get_response_huggingface] returns the continuation
    alone, trimmed of the whitespace at its ends. *)
Theorem huggingface_drops_prompt (W : World) (self : ClinicaChatbot.t)
  (msg answer : str) (reply : http_response hf_body) (rest : list hf_item) :
  (forall headers,
     hf_post W headers (ClinicaChatbot.hf_inputs msg) = Returned reply) ->
  status_code reply = 200 ->
  json reply
  = Some (HfList (HfDict (Some (ClinicaChatbot.hf_inputs msg ++ answer))
                  :: rest)) ->
  substr (ClinicaChatbot.hf_inputs msg) answer = false ->
  ClinicaChatbot.get_response_huggingface W self msg = Some (strip answer).
Proof.
  intros Hpost Hstatus Hjson Habsent.
  unfold ClinicaChatbot.get_response_huggingface.
  rewrite Hpost, Hstatus, Hjson. cbn [Z.eqb Pos.eqb default from_option id].
  rewrite ReplaceFacts.replace_echo;
    [reflexivity|apply ReplaceFacts.hf_inputs_not_empty|exact Habsent].
Qed.

Lemma huggingface_drops_prompt_witness :
  ClinicaChatbot.get_response_huggingface
    (huggingface_echoes (u "  Podemos ajudar.  ")) new_chatbot (u "oi")
  = Some (u "Podemos ajudar.").
Proof.
  assert (strip (u "  Podemos ajudar.  ") = u "Podemos ajudar.") as <-
    by (vm_compute; reflexivity).
  apply (huggingface_drops_prompt
           (huggingface_echoes (u "  Podemos ajudar.  ")) new_chatbot
           (u "oi") (u "  Podemos ajudar.  ")
           {| status_code := 200;
              json :=
                Some (HfList
                        [HfDict (Some (ClinicaChatbot.hf_inputs (u "oi")
                                       ++ u "  Podemos ajudar.  "))]) |}
           []).
  - intros headers. reflexivity.
  - reflexivity.
  - reflexivity.
  - vm_compute. reflexivity.
Defined.

(** X16: inside [get_response] the OpenAI backend is sent the system
    prompt followed by a window of the history that has at most ten
    entries, is the end of the history, and ends with the message of the
    user that is being answered. *)
Theorem openai_window (U : UnicodeData) (N : Nlp) (W : World)
  (self : ClinicaChatbot.t) (msg : str) :
  let history :=
    ClinicaChatbot.conversation_history (ClinicaChatbot.heard self msg) in
  let window := last_n 10 history in
  ClinicaChatbot.get_response_openai W (ClinicaChatbot.heard self msg) msg
  = match chat_completions_create W
            ({| role := u "system";
                content := Some (ClinicaChatbot.system_prompt self);
                sentiment := None |} :: window) with
    | Returned text => text
    | Raised => None
    end
  /\ (length window <= 10)%nat
  /\ (exists older, history = older ++ window)
  /\ last window
     = Some {| role := u "user"; content := Some msg;
               sentiment :=
                 Some (SentimentAnalyzer.analyze_sentiment msg) |}.
Proof.
  intros history window. subst history window.
  split; [reflexivity|].
  unfold last_n.
  cbn [ClinicaChatbot.heard ClinicaChatbot.append
         ClinicaChatbot.conversation_history].
  set (h := ClinicaChatbot.conversation_history self).
  set (m := {| role := u "user"; content := Some msg;
               sentiment := Some (SentimentAnalyzer.analyze_sentiment msg) |}).
  rewrite length_app. cbn [length].
  split; [rewrite length_drop, length_app; cbn [length]; lia|].
  split; [eexists; symmetry; apply take_drop|].
  rewrite drop_app_le by lia. apply last_snoc.
Qed.

(** X17: a ticket created for a session is found again under that
    session, open and with the fields it was given, beside the tickets
    the session had, and its id is above every id of the table; the
    tickets of the other sessions are untouched; without a session the
    creation is refused. *)
Theorem create_then_get_tickets (db : DatabaseManager.t) (sid : str)
  (title description priority : str) :
  DatabaseManager.create_ticket db None title description priority = None
  /\ exists id db',
       DatabaseManager.create_ticket db (Some sid) title description
                                     priority = Some (id, db')
       /\ (forall tk,
             In tk (DatabaseManager.get_tickets_by_session db' (Some sid))
             <-> tk = {| DatabaseManager.ticket_id := id;
                         DatabaseManager.ticket_session_id := sid;
                         DatabaseManager.ticket_title := title;
                         DatabaseManager.ticket_description := description;
                         DatabaseManager.ticket_status := u "aberto";
                         DatabaseManager.ticket_priority := priority |}
                 \/ In tk (DatabaseManager.get_tickets_by_session
                             db (Some sid)))
       /\ (forall tk, In tk (DatabaseManager.tickets db) ->
                      DatabaseManager.ticket_id tk < id)
       /\ (forall other, other <> sid ->
             DatabaseManager.get_tickets_by_session db' (Some other)
             = DatabaseManager.get_tickets_by_session db (Some other))
       /\ DatabaseManager.conversations db'
          = DatabaseManager.conversations db.
Proof.
  split; [reflexivity|].
  eexists _, _. split; [reflexivity|].
  unfold DatabaseManager.get_tickets_by_session.
  cbn [DatabaseManager.tickets DatabaseManager.conversations].
  split; [|split; [|split; [|reflexivity]]].
  - intros tk. rewrite List.filter_app, rev_app_distr.
    cbn [List.filter DatabaseManager.ticket_session_id].
    rewrite str_eqb_refl. cbn [rev app]. simpl In.
    split; intros [H|H]; auto.
  - intros tk Hin. unfold DatabaseManager.next_id.
    induction (DatabaseManager.tickets db) as [|t l IH]; [destruct Hin|].
    cbn [map fold_right]. destruct Hin as [->|Hin]; [lia|].
    specialize (IH Hin). lia.
  - intros other Hne. rewrite List.filter_app.
    cbn [List.filter DatabaseManager.ticket_session_id].
    destruct (str_eqb sid other) eqn:E;
      [apply str_eqb_eq in E; congruence|].
    rewrite app_nil_r. reflexivity.
Qed.

(** ** The lead and the answer of [get_response] *)

(** X18: for every message [get_response] hands the CRM a lead, the
    urgency pass never raising on an analysis: the lead carries the
    message, the analysis, the source ['chatbot'], one of the three
    urgencies, and as session the conversation id alone, also when the
    route files the same request under a [session_id]. *)
Theorem lead_of_every_message (U : UnicodeData) (N : Nlp) (W : World)
  (self : ClinicaChatbot.t) (msg : str) (cid : option str)
  (language : str) :
  exists l,
    ClinicaChatbot.lead
      (ClinicaChatbot.get_response W self msg cid language) = Some l
    /\ ClinicaChatbot.lead_session_id l = cid
    /\ ClinicaChatbot.lead_message l = msg
    /\ ClinicaChatbot.source l = u "chatbot"
    /\ ClinicaChatbot.lead_sentiment l
       = Some (SentimentAnalyzer.analyze_sentiment msg)
    /\ In (ClinicaChatbot.urgency l) [u "baixa"; u "média"; u "alta"].
Proof.
  rewrite AnswerFacts.get_response_lead.
  destruct (UrgencyFacts.analyze_sentiment_dict msg)
    as (s & p & sb & c & lg & e & k & Hd).
  unfold ClinicaChatbot.detect_urgency_and_create_ticket. rewrite Hd.
  rewrite bool_decide_eq_false_2 by apply DictFacts.not_empty.
  unfold get_float, truthy_get.
  rewrite DictFacts.get_polarity, DictFacts.get_emergency_keywords.
  rewrite andb_false_r.
  destruct (existsb _ ClinicaChatbot.high_priority_keywords);
    [|destruct (existsb _ ClinicaChatbot.medium_priority_keywords)];
    destruct (qlt p _);
    eexists; (split; [reflexivity|]);
    cbn [ClinicaChatbot.lead_session_id ClinicaChatbot.lead_message
           ClinicaChatbot.source ClinicaChatbot.lead_sentiment
           ClinicaChatbot.urgency];
    repeat (split; [reflexivity|]); vm_compute; tauto.
Qed.

(** X19: when [AI_PROVIDER] is ['openai'], the client exists and OpenAI
    answers a non-empty text, [get_response] returns that text as it is
    (in the default language) and calls no other backend, whatever the
    message: the fallback is not consulted, emergencies included. *)
Theorem openai_answer_is_returned (U : UnicodeData) (N : Nlp) (W : World)
  (self : ClinicaChatbot.t) (msg : str) (cid : option str) (x : str) :
  AI_PROVIDER W = u "openai" ->
  client W = true ->
  ClinicaChatbot.get_response_openai W (ClinicaChatbot.heard self msg) msg
  = Some x ->
  x <> [] ->
  ClinicaChatbot.response
    (ClinicaChatbot.get_response W self msg cid (u "pt")) = Some x
  /\ ClinicaChatbot.calls
       (ClinicaChatbot.get_response W self msg cid (u "pt")) = [OpenAI].
Proof.
  intros Hmode Hclient Hopenai Hx.
  destruct (ResolverFacts.get_response_pt W self msg cid) as [-> ->].
  lazy zeta. rewrite Hmode.
  change (str_eqb (u "openai") (u "fallback")) with false.
  rewrite orb_true_r.
  rewrite (ChainFacts.provider_chain_cases W (ClinicaChatbot.heard self msg)
             msg).
  lazy zeta. rewrite Hmode, Hclient, str_eqb_refl.
  cbn [andb]. rewrite Hopenai.
  apply falsy_Some in Hx. rewrite Hx. cbn [negb fst snd]. rewrite Hx.
  split; reflexivity.
Qed.

Lemma openai_answer_is_returned_witness :
  let a :=
    @ClinicaChatbot.get_response Latin1.tables (constant_nlp 0 0)
      (openai_answers ∅ (u "X")) new_chatbot (u "socorro, crise") None
      (u "pt") in
  @ClinicaChatbot.get_response_fallback Latin1.tables (u "socorro, crise")
  = Some ClinicaChatbot.resposta_emergencia
  /\ ClinicaChatbot.response a = Some (u "X")
  /\ ClinicaChatbot.calls a = [OpenAI].
Proof.
  intros a. split; [vm_compute; reflexivity|].
  apply (openai_answer_is_returned Latin1.tables (constant_nlp 0 0)
           (openai_answers ∅ (u "X")) new_chatbot (u "socorro, crise") None
           (u "X")).
  - reflexivity.
  - reflexivity.
  - reflexivity.
  - discriminate.
Defined.
